(** * respy.unit_base.auxil: unit resolution, expression decomposition and
    dimension classification

    A shallow embedding of [src/respy/unit_base/auxil.pyx].

    The module is Cython over Python 2 ([from __future__ import division]; a
    [char*] argument read back as a [str], which ends at the first NUL byte,
    and whose tokens are compared both with the [str] entries of the
    operation list and with byte literals, the same type there).  Python
    objects are values of [pyobj]; a call either
    returns a value or raises, which is the [result] type.  Everything the
    module imports and does not define (sympy, the registry [__UNITS__], the
    sentinels [__NONE_UNITS__], the dimension constants, float arithmetic)
    is a field of the interface [Engine]. *)

From Stdlib Require Import ZArith String Ascii List Lia Bool.
From Stdlib Require Import PrimFloat Uint63.
From stdpp Require Import base option list strings pretty gmap.

Local Open Scope string_scope.
Local Open Scope Z_scope.

(** ** Exceptions and results *)

Inductive exn : Type :=
| IndexError
| KeyError
| AttributeError
| ZeroDivisionError
| OverflowError
| ValueError (msg : string)
| TypeError (msg : string)
| UnitError (msg : string).

Inductive result (A : Type) : Type :=
| Ok (a : A)
| Raise (e : exn).

Arguments Ok {A} a.
Arguments Raise {A} e.

#[global] Instance result_ret : MRet result := fun A a => Ok a.
#[global] Instance result_bind : MBind result := fun A B f r =>
  match r with
  | Ok a => f a
  | Raise e => Raise e
  end.
#[global] Instance result_fmap : FMap result := fun A B f r =>
  match r with
  | Ok a => Ok (f a)
  | Raise e => Raise e
  end.

(** [l[i]] on a Python list or tuple, for an index that is not negative. *)
Definition getitem {A} (l : list A) (i : nat) : result A :=
  match l !! i with
  | Some x => Ok x
  | None => Raise IndexError
  end.

(** [try: r except IndexError: pass], the value [dflt] standing for the
    state the [pass] leaves. *)
Definition except_IndexError {A} (r : result A) (dflt : A) : result A :=
  match r with
  | Raise IndexError => Ok dflt
  | _ => r
  end.

(** ** Strings *)

(** The characters [str.split()] splits on: space, and tab to carriage
    return. *)
Definition is_space (c : ascii) : bool :=
  let n := nat_of_ascii c in
  ((n =? 32) || ((9 <=? n) && (n <=? 13)))%nat.

(** [s.split()]: the maximal runs of characters that are not whitespace. *)
Fixpoint split (s : string) : list string :=
  match s with
  | EmptyString => []
  | String c r =>
      if is_space c then split r
      else
        match r with
        | EmptyString => [String c EmptyString]
        | String c' _ =>
            if is_space c' then String c EmptyString :: split r
            else
              match split r with
              | t :: ts => String c t :: ts
              | [] => [String c EmptyString]
              end
        end
  end.

(** What is read back from a [char*]: the bytes before the first NUL. *)
Fixpoint c_str (s : string) : string :=
  match s with
  | EmptyString => EmptyString
  | String c r =>
      if Ascii.eqb c Ascii.zero then EmptyString else String c (c_str r)
  end.

(** A string without a NUL byte. *)
Fixpoint nul_free (s : string) : bool :=
  match s with
  | EmptyString => true
  | String c r => negb (Ascii.eqb c Ascii.zero) && nul_free r
  end.

(** A string of whitespace only (the empty string is one). *)
Fixpoint all_space (s : string) : bool :=
  match s with
  | EmptyString => true
  | String c r => is_space c && all_space r
  end.

(** [p in s] for two strings. *)
Fixpoint contains (p s : string) : bool :=
  String.prefix p s ||
  match s with
  | EmptyString => false
  | String _ r => contains p r
  end.

Definition digit (c : ascii) : option Z :=
  let n := nat_of_ascii c in
  if ((48 <=? n) && (n <=? 57))%nat then Some (Z.of_nat (n - 48)) else None.

Fixpoint digits (acc : Z) (s : string) : option Z :=
  match s with
  | EmptyString => Some acc
  | String c r =>
      match digit c with
      | Some d => digits (10 * acc + d) r
      | None => None
      end
  end.

(** [int(item)] on a token (no whitespace inside): an optional sign and at
    least one decimal digit; [None] is the [ValueError]. *)
Definition py_int (item : string) : option Z :=
  match item with
  | EmptyString => None
  | String c r =>
      if Ascii.eqb c "-" then
        match r with
        | EmptyString => None
        | _ => Z.opp <$> digits 0 r
        end
      else if Ascii.eqb c "+" then
        match r with
        | EmptyString => None
        | _ => digits 0 r
        end
      else digits 0 item
  end.

Definition __OPERATION_LIST__ : list string := ["*"; "/"; "+"; "-"; "**"].

(** ** Python objects *)

(** The objects the module handles: [None], integers, floats, strings,
    instances of sympy classes, and numpy arrays (shape, then the elements
    in row-major order).  Instances of other classes are not represented:
    the statements speak of these six kinds. *)
#[local] Unset Elimination Schemes.
Inductive pyobj (Expr Float : Type) : Type :=
| PyNone
| PyInt (z : Z)
| PyFloat (f : Float)
| PyStr (s : string)
| PySym (e : Expr)
| PyArray (shape : list nat) (data : list (pyobj Expr Float)).
#[local] Set Elimination Schemes.

Arguments PyNone {Expr Float}.
Arguments PyInt {Expr Float} z.
Arguments PyFloat {Expr Float} f.
Arguments PyStr {Expr Float} s.
Arguments PySym {Expr Float} e.
Arguments PyArray {Expr Float} shape data.

(** The five operators of the operation list. *)
Inductive operator : Type := OMul | ODiv | OAdd | OSub | OPow.

(** ** What the module imports *)

Class Engine : Type := {
  (** instances of sympy classes, and Python floats *)
  Expr : Type;
  Float : Type;
  (** [str(type(e))] *)
  type_name : Expr -> string;
  (** [e.args] *)
  args : Expr -> list Expr;
  (** [float(e)]; [None] is the [TypeError] sympy raises for an expression
      that is not a number *)
  to_float : Expr -> option Float;
  (** what sympy makes of a Python number met as an operand *)
  sympify_int : Z -> Expr;
  sympify_float : Float -> Expr;
  (** the five operators between two expressions *)
  e_binop : operator -> Expr -> Expr -> Expr;
  (** an operator whose result is a Python float *)
  float_arith :
    operator -> pyobj Expr Float -> pyobj Expr Float ->
    result (pyobj Expr Float);
  (** [float(z)] for an integer that reaches a cast *)
  float_of_int : Z -> Float;
  (** [a == b], read as a truth value *)
  py_eq : pyobj Expr Float -> pyobj Expr Float -> bool;
  (** [str(x)] *)
  py_str : pyobj Expr Float -> string;
  (** [x.name] for an attribute name: the value, or what the read raises
      ([AttributeError] without such an attribute; a property can raise
      anything else) *)
  getattr : pyobj Expr Float -> string -> result (pyobj Expr Float);
  (** the registry and the sentinels *)
  __UNITS__ : gmap string Expr;
  __NONE_UNITS__ : list (pyobj Expr Float);
  (** [respy.units.util] and [respy.units.dimensions]; [length_] is the
      source's [length] *)
  Zero : pyobj Expr Float;
  One : pyobj Expr Float;
  length_ : pyobj Expr Float;
  area : pyobj Expr Float;
  volume : pyobj Expr Float
}.

Section Module_auxil.
Context {E : Engine}.

#[local] Abbreviation obj := (pyobj Expr Float).

(** [str(type(x))] for any object. *)
Definition py_type_str (x : obj) : string :=
  match x with
  | PyNone => "<type 'NoneType'>"
  | PyInt _ => "<type 'int'>"
  | PyFloat _ => "<type 'float'>"
  | PyStr _ => "<type 'str'>"
  | PySym e => type_name e
  | PyArray _ _ => "<type 'numpy.ndarray'>"
  end.

(** [x.args] *)
Definition py_args (x : obj) : result (list obj) :=
  match x with
  | PySym e => Ok (PySym <$> args e)
  | _ => Raise AttributeError
  end.

(** [float(x)] *)
Definition py_float (x : obj) : result Float :=
  match x with
  | PyInt z => Ok (float_of_int z)
  | PyFloat f => Ok f
  | PySym e =>
      match to_float e with
      | Some f => Ok f
      | None => Raise (TypeError "can't convert expression to float")
      end
  | _ => Raise (TypeError "float() argument must be a string or a number")
  end.

(** [a op b] (and [a op= b], the objects being immutable), with true
    division.  An expression on either side makes the other one an
    expression; two integers stay integers unless the quotient or a negative
    power leaves them. *)
Definition py_binop (op : operator) (a b : obj) : result obj :=
  match a, b with
  | PySym x, PySym y => Ok (PySym (e_binop op x y))
  | PySym x, PyInt z => Ok (PySym (e_binop op x (sympify_int z)))
  | PyInt z, PySym y => Ok (PySym (e_binop op (sympify_int z) y))
  | PySym x, PyFloat f => Ok (PySym (e_binop op x (sympify_float f)))
  | PyFloat f, PySym y => Ok (PySym (e_binop op (sympify_float f) y))
  | PyInt x, PyInt y =>
      match op with
      | OMul => Ok (PyInt (x * y))
      | OAdd => Ok (PyInt (x + y))
      | OSub => Ok (PyInt (x - y))
      | ODiv =>
          if y =? 0 then Raise ZeroDivisionError else float_arith op a b
      | OPow =>
          if 0 <=? y then Ok (PyInt (x ^ y))
          else if x =? 0 then Raise ZeroDivisionError
          else float_arith op a b
      end
  | PyInt _, PyFloat _ | PyFloat _, PyInt _ | PyFloat _, PyFloat _ =>
      float_arith op a b
  | _, _ => Raise (TypeError "unsupported operand type(s)")
  end.

(** *** get_unit_from_str *)

(** The first loop: every token goes to [operand_list] (an operator) or to
    [unit_list] (an integer, or a unit of the registry). *)
Fixpoint scan (unit_str : list string) (unit_list : list obj)
    (operand_list : list string) : result (list obj * list string) :=
  match unit_str with
  | [] => Ok (unit_list, operand_list)
  | item :: rest =>
      if bool_decide (item ∈ __OPERATION_LIST__) then
        scan rest unit_list (operand_list ++ [item])
      else
        match py_int item with
        | Some z => scan rest (unit_list ++ [PyInt z]) operand_list
        | None =>
            match __UNITS__ !! item with
            | Some u => scan rest (unit_list ++ [PySym u]) operand_list
            | None => Raise (UnitError (item ++ " is not a valid unit."))
            end
        end
  end.

(** The body of the second loop at index [i]. *)
Definition combine (operand_list : list string) (i : nat)
    (unit_obj item : obj) : result obj :=
  except_IndexError
    (op ← getitem operand_list (i - 1);
     if String.eqb op "*" then py_binop OMul unit_obj item
     else if String.eqb op "/" then py_binop ODiv unit_obj item
     else if String.eqb op "+" then py_binop OAdd unit_obj item
     else if String.eqb op "-" then py_binop OSub unit_obj item
     else if String.eqb op "**" then py_binop OPow unit_obj item
     else Ok unit_obj)
    unit_obj.

(** The second loop from index [i] on, [items] being [unit_list[i:]]. *)
Fixpoint reduce (operand_list : list string) (i : nat) (items : list obj)
    (unit_obj : obj) : result obj :=
  match items with
  | [] => Ok unit_obj
  | item :: rest =>
      unit_obj' ← combine operand_list i unit_obj item;
      reduce operand_list (S i) rest unit_obj'
  end.

(** [unit.split()] for the [char*] argument [unit]: the tokens of the
    bytes before the first NUL. *)
Definition unit_str (unit : string) : list string := split (c_str unit).

Definition get_unit_from_str (unit : string) : result obj :=
  '(unit_list, operand_list) ← scan (unit_str unit) [] [];
  unit_obj ← getitem unit_list 0;
  reduce operand_list 1 (drop 1 unit_list) unit_obj.

(** *** decompose_expr *)

(** The branch [decompose_expr] takes: its chain of tests on
    [str(type(expr))]. *)
Inductive discriminant : Type := Pow_ | Mul_ | Other_.

Definition discriminant_of (expr : obj) : discriminant :=
  if contains "Pow" (py_type_str expr) then Pow_
  else if contains "Mul" (py_type_str expr) then Mul_
  else Other_.

(** The loop [for i in range(1, len(unit)): unit_obj *= unit[i]], [items]
    being [unit[1:]]. *)
Fixpoint product (items : list obj) (unit_obj : obj) : result obj :=
  match items with
  | [] => Ok unit_obj
  | item :: rest =>
      unit_obj' ← py_binop OMul unit_obj item;
      product rest unit_obj'
  end.

(** The body of the [try] of the product branch. *)
Definition split_product (value : obj) (expr_args : list obj) :
    result (obj * obj) :=
  value' ← py_float value;
  let unit := drop 1 expr_args in
  unit_obj ←
    (if (length unit =? 1)%nat then getitem unit 0
     else
       unit_obj ← getitem unit 0;
       product (drop 1 unit) unit_obj);
  Ok (PyFloat value', unit_obj).

Definition decompose_expr (expr : obj) : result (obj * obj) :=
  if contains "Pow" (py_type_str expr) then Ok (PyInt 1, expr)
  else if contains "Mul" (py_type_str expr) then
    expr_args ← py_args expr;
    value ← getitem expr_args 0;
    match split_product value expr_args with
    | Raise (TypeError _) => Ok (PyInt 1, expr)
    | r => r
    end
  else Raise (TypeError ("Data type " ++ py_str expr ++ " not understood.")).

(** *** numpy comparisons *)

(** [a == b] for an array [b], element by element, [a] broadcast: an
    element against every element, a sub-array against every row. *)
Definition np_equal (a b : obj) : list bool :=
  match b with
  | PyArray _ data =>
      match a with
      | PyArray _ row =>
          imap (fun i x =>
                  match row !! (i mod length row)%nat with
                  | Some y => py_eq y x
                  | None => false
                  end) data
      | _ => (fun x => py_eq a x) <$> data
      end
  | _ => [py_eq a b]
  end.

(** [np.any] *)
Definition np_any (l : list bool) : bool := existsb (fun b => b) l.

(** *** get_unit *)

(** [bool(a == b)]: against an array the comparison is made element by
    element, and its truth is the one of its single element; several
    elements have none. *)
Definition py_eq_truth (a b : obj) : result bool :=
  match b with
  | PyArray _ _ =>
      match np_equal a b with
      | [] => Ok false
      | [t] => Ok t
      | _ =>
          Raise (ValueError
            ("The truth value of an array with more than one element is "
             ++ "ambiguous. Use a.any() or a.all()"))
      end
  | _ => Ok (py_eq a b)
  end.

(** [x in l], the elements of [l] compared with [x] in their order. *)
Fixpoint py_in (x : obj) (l : list obj) : result bool :=
  match l with
  | [] => Ok false
  | item :: rest =>
      match py_eq_truth item x with
      | Ok true => Ok true
      | Ok false => py_in x rest
      | Raise err => Raise err
      end
  end.

Definition get_unit (unit : obj) : result obj :=
  match unit with
  | PySym _ => Ok unit
  | PyStr s => get_unit_from_str s
  | _ =>
      match py_in unit __NONE_UNITS__ with
      | Ok true => Ok Zero
      | Ok false => Raise (UnitError (py_str unit ++ " is not a valid unit."))
      | Raise err => Raise err
      end
  end.

(** *** get_dimension *)

(** The branch [get_dimension] takes on the resolved unit. *)
Inductive unit_kind : Type := Quantity_kind | Pow_kind | Other_kind.

Definition unit_kind_of (unit : obj) : unit_kind :=
  if contains "Quantity" (py_type_str unit) then Quantity_kind
  else if contains "Pow" (py_type_str unit) then Pow_kind
  else Other_kind.

(** [x.name]: the value, or the error of the read. *)
Definition py_getattr (x : obj) (name : string) : result obj :=
  getattr x name.

(** [try: r except AttributeError: dimension = Zero] *)
Definition except_AttributeError (r : result obj) : result obj :=
  match r with
  | Raise AttributeError => Ok Zero
  | _ => r
  end.

(** [unit_base, exp = unit.args] *)
Definition unpack2 (l : list obj) : result (obj * obj) :=
  match l with
  | [a; b] => Ok (a, b)
  | [] => Raise (ValueError "need more than 0 values to unpack")
  | [_] => Raise (ValueError "need more than 1 value to unpack")
  | _ => Raise (ValueError "too many values to unpack")
  end.

Definition get_dimension (unit : obj) : result obj :=
  unit ← get_unit unit;
  if contains "Quantity" (py_type_str unit) then
    except_AttributeError
      (dimension ← py_getattr unit "dimension";
       name ← py_getattr dimension "name";
       if py_eq name One then Ok Zero else Ok dimension)
  else if contains "Pow" (py_type_str unit) then
    unit_args ← py_args unit;
    '(unit_base, exp) ← unpack2 unit_args;
    except_AttributeError
      (dimension_base ← py_getattr unit_base "dimension";
       if py_eq dimension_base length_ then
         if py_eq exp (PyInt 2) then Ok area
         else if py_eq exp (PyInt 3) then Ok volume
         else Ok Zero
       else Ok Zero)
  else Ok Zero.

(** *** decompose_expr_array *)

(** [a[0]]: the first element of a one-dimensional array, the first
    sub-array of a larger one. *)
Definition getitem0 (a : obj) : result obj :=
  match a with
  | PyArray (n :: rest) data =>
      if (n =? 0)%nat then Raise IndexError
      else
        match rest with
        | [] => getitem data 0
        | _ => Ok (PyArray rest (take (foldr Nat.mul 1%nat rest) data))
        end
  | PyArray [] _ => Raise IndexError
  | _ => Raise (TypeError "object has no attribute '__getitem__'")
  end.

(** [a.astype(np.double)] *)
Definition astype_double (a : obj) : result obj :=
  match a with
  | PyArray shape data =>
      data' ← mapM (fun x => PyFloat <$> py_float x) data;
      Ok (PyArray shape data')
  | _ => Raise AttributeError
  end.

Definition decompose_expr_array (value : obj) : result (obj * obj) :=
  match value with
  | PyArray shape value_flatten =>
      pairs ← mapM decompose_expr value_flatten;
      let value := PyArray shape (pairs.*1) in
      let unit := PyArray shape (pairs.*2) in
      unit0 ← getitem0 unit;
      if np_any (np_equal unit0 unit) then
        value' ← astype_double value;
        Ok (value', unit0)
      else
        Raise (ValueError
          "If the input is an array, the units for all values must be equal.")
  | _ => Raise AttributeError
  end.

(** *** decompose_expr_to_atoms *)

Definition decompose_expr_to_atoms (value : obj) : result (obj * obj) :=
  match value with
  | PySym _ => decompose_expr value
  | PyArray _ _ => decompose_expr_array value
  | _ => Raise (TypeError (py_str value ++ " is not a valid expression."))
  end.

(** *** Vocabulary of the statements *)

(** What the first loop puts in [unit_list]: an integer or an expression. *)
Definition is_operand (x : obj) : Prop :=
  match x with
  | PyInt _ | PySym _ => True
  | _ => False
  end.

(** What [decompose_expr] returns as a magnitude: the integer 1 or a
    float. *)
Definition is_magnitude (x : obj) : Prop :=
  match x with
  | PyInt 1 | PyFloat _ => True
  | _ => False
  end.

(** A token the first loop rejects: no operator, no integer, no key of the
    registry. *)
Definition unknown (item : string) : Prop :=
  (item ∉ __OPERATION_LIST__) /\ (py_int item = None) /\
  (__UNITS__ !! item = None).

(** A token the first loop accepts. *)
Definition resolvable (item : string) : Prop :=
  (item ∈ __OPERATION_LIST__) \/ is_Some (py_int item) \/
  is_Some (__UNITS__ !! item).

(** The operator a token of [operand_list] selects in the second loop. *)
Definition operator_of (op : string) : option operator :=
  if String.eqb op "*" then Some OMul
  else if String.eqb op "/" then Some ODiv
  else if String.eqb op "+" then Some OAdd
  else if String.eqb op "-" then Some OSub
  else if String.eqb op "**" then Some OPow
  else None.

(** The expression an operand is when it meets an expression. *)
Definition as_expr (item : obj) : option Expr :=
  match item with
  | PySym e => Some e
  | PyInt z => Some (sympify_int z)
  | PyFloat f => Some (sympify_float f)
  | _ => None
  end.

(** The left fold the statements compare the second loop with: the k-th
    operator between the accumulator and the k-th operand after the first,
    as long as both lists last. *)
Fixpoint fold_ops (unit_obj : Expr) (operand_list : list string)
    (items : list Expr) : Expr :=
  match operand_list, items with
  | op :: ops, item :: rest =>
      fold_ops
        (match operator_of op with
         | Some o => e_binop o unit_obj item
         | None => unit_obj
         end) ops rest
  | _, _ => unit_obj
  end.

(** The same fold on integers, for the operators that keep them integers. *)
Fixpoint fold_ints (acc : Z) (operand_list : list string) (items : list Z) :
    Z :=
  match operand_list, items with
  | op :: ops, z :: rest =>
      fold_ints
        (match operator_of op with
         | Some OMul => acc * z
         | Some OAdd => acc + z
         | Some OSub => acc - z
         | _ => acc
         end) ops rest
  | _, _ => acc
  end.

(** A float of an output array. *)
Definition is_float (x : obj) : Prop :=
  match x with
  | PyFloat _ => True
  | _ => False
  end.

End Module_auxil.

(** ** A reference engine

    Modelled from the spec: the symbolic engine, the registry, the sentinels
    and the dimension constants are not in the module.  The spec asks of them
    the five operators, the discriminant, [args] and equality; this instance
    gives them on monomials of units (a coefficient and a sorted list of
    units with their non-zero integer exponents), with the laws of exponents
    a symbolic engine applies by itself: a product adds exponents, a
    quotient is the product with the power -1, an integer power of a
    product multiplies them.  Two monomials that differ here differ in every
    engine whose equality respects those laws.  What leaves the monomials is
    kept as an operator node.  It serves the statements on explicit inputs. *)
Module Ref.

Inductive num : Type :=
| NInt (z : Z)
| NFlt (f : float).

Inductive sym : Type :=
| Mono (c : num) (e : list (string * Z))
| Dimension (name : string)
| Symbol (name : string)
| Node (op : operator) (a b : sym).

(** [float(z)], exact for the integers below 2^53 *)
Definition float_of_Z (z : Z) : float :=
  if z <? 0 then PrimFloat.opp (PrimFloat.of_uint63 (Uint63.of_Z (- z)))
  else PrimFloat.of_uint63 (Uint63.of_Z z).

Definition num_float (c : num) : float :=
  match c with
  | NInt z => float_of_Z z
  | NFlt f => f
  end.

Definition num_mul (a b : num) : num :=
  match a, b with
  | NInt x, NInt y => NInt (x * y)
  | _, _ => NFlt (PrimFloat.mul (num_float a) (num_float b))
  end.

Definition num_eqb (a b : num) : bool :=
  match a, b with
  | NInt x, NInt y => x =? y
  | _, _ => PrimFloat.eqb (num_float a) (num_float b)
  end.

(** Multiply a monomial's units by [u ** k]. *)
Fixpoint add_exp (u : string) (k : Z) (e : list (string * Z)) :
    list (string * Z) :=
  match e with
  | [] => if k =? 0 then [] else [(u, k)]
  | (v, j) :: r =>
      match String.compare u v with
      | Eq => if k + j =? 0 then r else (v, k + j) :: r
      | Lt => if k =? 0 then e else (u, k) :: e
      | Gt => (v, j) :: add_exp u k r
      end
  end.

Definition mul_exp (e1 e2 : list (string * Z)) : list (string * Z) :=
  foldr (fun p acc => add_exp p.1 p.2 acc) e2 e1.

Definition scale_exp (k : Z) (e : list (string * Z)) : list (string * Z) :=
  if k =? 0 then [] else (fun p => (p.1, k * p.2)) <$> e.

Definition mono (c : num) (e : list (string * Z)) : sym :=
  match c with
  | NInt 0 => Mono (NInt 0) []
  | _ => Mono c e
  end.

Definition e_pow (a b : sym) : sym :=
  match a, b with
  | Mono (NInt 1) e, Mono (NInt k) [] => Mono (NInt 1) (scale_exp k e)
  | Mono (NInt c) e, Mono (NInt k) [] =>
      if 0 <=? k then mono (NInt (c ^ k)) (scale_exp k e) else Node OPow a b
  | _, _ => Node OPow a b
  end.

Definition e_mul (a b : sym) : sym :=
  match a, b with
  | Mono c1 e1, Mono c2 e2 => mono (num_mul c1 c2) (mul_exp e1 e2)
  | _, _ => Node OMul a b
  end.

Definition e_add (sign : Z) (op : operator) (a b : sym) : sym :=
  match a, b with
  | Mono (NInt c1) e1, Mono (NInt c2) e2 =>
      if bool_decide (e1 = e2) then mono (NInt (c1 + sign * c2)) e1
      else Node op a b
  | _, _ => Node op a b
  end.

Definition binop (op : operator) (a b : sym) : sym :=
  match op with
  | OMul => e_mul a b
  | ODiv => e_mul a (e_pow b (Mono (NInt (-1)) []))
  | OPow => e_pow a b
  | OAdd => e_add 1 op a b
  | OSub => e_add (-1) op a b
  end.

Definition quantity (u : string) : sym := Mono (NInt 1) [(u, 1)].

Definition factor (p : string * Z) : sym := Mono (NInt 1) [p].

Definition type_name (e : sym) : string :=
  match e with
  | Mono (NInt _) [] => "<class 'sympy.core.numbers.Integer'>"
  | Mono (NFlt _) [] => "<class 'sympy.core.numbers.Float'>"
  | Mono (NInt 1) [(_, 1)] =>
      "<class 'sympy.physics.units.quantities.Quantity'>"
  | Mono (NInt 1) [_] => "<class 'sympy.core.power.Pow'>"
  | Mono _ _ => "<class 'sympy.core.mul.Mul'>"
  | Dimension _ => "<class 'sympy.physics.units.dimensions.Dimension'>"
  | Symbol _ => "<class 'sympy.core.symbol.Symbol'>"
  | Node OPow _ _ => "<class 'sympy.core.power.Pow'>"
  | Node (OMul | ODiv) _ _ => "<class 'sympy.core.mul.Mul'>"
  | Node (OAdd | OSub) _ _ => "<class 'sympy.core.add.Add'>"
  end.

(** The operands: of a power its base and exponent, of a product its
    coefficient (unless it is 1) and then its factors. *)
Definition args (e : sym) : list sym :=
  match e with
  | Mono _ [] => []
  | Mono (NInt 1) [(_, 1)] => []
  | Mono (NInt 1) [(u, k)] => [quantity u; Mono (NInt k) []]
  | Mono (NInt 1) e => factor <$> e
  | Mono c e => Mono c [] :: (factor <$> e)
  | Node _ a b => [a; b]
  | _ => []
  end.

Definition to_float (e : sym) : option float :=
  match e with
  | Mono c [] => Some (num_float c)
  | _ => None
  end.

Fixpoint sym_eqb (a b : sym) : bool :=
  match a, b with
  | Mono c e, Mono c' e' => num_eqb c c' && bool_decide (e = e')
  | Dimension n, Dimension n' => String.eqb n n'
  | Symbol n, Symbol n' => String.eqb n n'
  | Node op a1 a2, Node op' b1 b2 =>
      match op, op' with
      | OMul, OMul | ODiv, ODiv | OAdd, OAdd | OSub, OSub | OPow, OPow =>
          sym_eqb a1 b1 && sym_eqb a2 b2
      | _, _ => false
      end
  | _, _ => false
  end.

Definition as_sym (x : pyobj sym float) : option sym :=
  match x with
  | PyInt z => Some (Mono (NInt z) [])
  | PyFloat f => Some (Mono (NFlt f) [])
  | PySym e => Some e
  | _ => None
  end.

(** [a == b]; an array is not compared as a whole here. *)
Definition py_eq (a b : pyobj sym float) : bool :=
  match a, b with
  | PyNone, PyNone => true
  | PyStr s, PyStr t => String.eqb s t
  | _, _ =>
      match as_sym a, as_sym b with
      | Some x, Some y => sym_eqb x y
      | _, _ => false
      end
  end.

Definition as_float (x : pyobj sym float) : option float :=
  match x with
  | PyInt z => Some (float_of_Z z)
  | PyFloat f => Some f
  | _ => None
  end.

(** [x ** k] for an integer [k], by repeated multiplication. *)
Definition float_pow (x : float) (k : Z) : float :=
  let p := Z.iter (Z.abs k) (PrimFloat.mul x) 1%float in
  if k <? 0 then PrimFloat.div 1%float p else p.

(** Float arithmetic between the numbers the resolver can form: a float or
    an integer on the left, an integer exponent. *)
Definition float_arith (op : operator) (a b : pyobj sym float) :
    result (pyobj sym float) :=
  match as_float a, as_float b with
  | Some x, Some y =>
      match op with
      | OMul => Ok (PyFloat (PrimFloat.mul x y))
      | OAdd => Ok (PyFloat (PrimFloat.add x y))
      | OSub => Ok (PyFloat (PrimFloat.sub x y))
      | ODiv =>
          if PrimFloat.eqb y 0%float then Raise ZeroDivisionError
          else Ok (PyFloat (PrimFloat.div x y))
      | OPow =>
          match b with
          | PyInt k =>
              if PrimFloat.eqb x 0%float && (k <? 0)
              then Raise ZeroDivisionError
              else Ok (PyFloat (float_pow x k))
          | _ => Raise (TypeError "float power outside the reference engine")
          end
      end
  | _, _ => Raise (TypeError "unsupported operand type(s)")
  end.

(** [str(x)]; floats, expressions and arrays are shown by their kind only. *)
Definition py_str (x : pyobj sym float) : string :=
  match x with
  | PyNone => "None"
  | PyInt z => pretty z
  | PyStr s => s
  | PyFloat _ => "<float>"
  | PySym _ => "<expression>"
  | PyArray _ _ => "<array>"
  end.

Definition meter : sym := quantity "meter".
Definition second : sym := quantity "second".

Definition Zero : pyobj sym float := PySym (Mono (NInt 0) []).
Definition One : pyobj sym float := PySym (Mono (NInt 1) []).

(** The dimension of a quantity, by the quantity's name: the table of the
    unit system, which knows three quantities. *)
Definition dimension_of (u : string) : option sym :=
  if String.eqb u "meter" then Some (Dimension "length")
  else if String.eqb u "second" then Some (Dimension "time")
  else if String.eqb u "radian" then Some (Dimension "1")
  else None.

(** Attribute reads: [dimension] of a quantity is a look-up in the table,
    a [KeyError] for a quantity that is not in it; [name] of a dimension. *)
Definition getattr (x : pyobj sym float) (name : string) :
    result (pyobj sym float) :=
  match x with
  | PySym (Mono (NInt 1) [(u, 1)]) =>
      if String.eqb name "dimension" then
        match dimension_of u with
        | Some d => Ok (PySym d)
        | None => Raise KeyError
        end
      else Raise AttributeError
  | PySym (Dimension n) =>
      if String.eqb name "name" then
        Ok (if String.eqb n "1" then One else PySym (Symbol n))
      else Raise AttributeError
  | _ => Raise AttributeError
  end.

(** Modelled from the spec: the registry [__UNITS__], the sentinels
    [__NONE_UNITS__] (the spec names [None] and [1]) and the dimension
    constants, which the module imports from files that are not in [src/];
    the arguments follow the fields of [Engine] in their order. *)
#[global] Instance engine : Engine :=
  Build_Engine sym float type_name args to_float
    (fun z => Mono (NInt z) []) (fun f => Mono (NFlt f) [])
    binop float_arith float_of_Z py_eq py_str getattr
    {[ "m" := meter; "s" := second ]}
    [PyNone; PyInt 1]
    Zero One
    (PySym (Dimension "length"))
    (PySym (Dimension "area"))
    (PySym (Dimension "volume")).

(** Inputs of the statements on explicit inputs. *)
Definition float_times (f : float) (u : sym) : pyobj sym float :=
  PySym (binop OMul (Mono (NFlt f) []) u).

Definition meter_squared : sym := binop OPow meter (Mono (NInt 2) []).

Definition meter_second : sym := binop OMul meter second.

Definition five_meter_second : sym :=
  binop OMul (binop OMul (Mono (NFlt 5) []) meter) second.

(** [meter * second ** -2] *)
Definition meter_per_square_second : sym :=
  binop OMul meter (binop OPow second (Mono (NInt (-2)) [])).

(** [meter ** 2 * second ** -2] *)
Definition square_meter_per_square_second : sym :=
  binop OMul (binop OPow meter (Mono (NInt 2) []))
    (binop OPow second (Mono (NInt (-2)) [])).

(** A one-dimensional array of [3.0 * meter] and [2.0 * second]. *)
Definition mixed_array : pyobj sym float :=
  PyArray [2%nat] [float_times 3 meter; float_times 2 second].

(** The two by two array of [3.0 * meter]. *)
Definition uniform_array : pyobj sym float :=
  PyArray [2%nat; 2%nat]
    [float_times 3 meter; float_times 3 meter;
     float_times 3 meter; float_times 3 meter].

End Ref.


(** ** Properties, for every engine *)

Section Properties.
Context {E : Engine}.

#[local] Abbreviation obj := (pyobj Expr Float).

(** Closed membership facts about the operation list. *)
Ltac in_operations := apply (bool_decide_unpack _); vm_compute; exact I.
Ltac not_in_operations :=
  let H := fresh in
  intros H; apply (bool_decide_pack _) in H; vm_compute in H; exact H.

(** *** Strings *)

Example split_tokens :
  split "  m /  s ** 2 " = ["m"; "/"; "s"; "**"; "2"].
Proof. reflexivity. Qed.

Example py_int_literals :
  py_int "5" = Some 5 /\ py_int "-12" = Some (-12) /\
  py_int "+7" = Some 7 /\ py_int "007" = Some 7 /\
  py_int "+" = None /\ py_int "-" = None /\
  py_int "m" = None /\ py_int "2m" = None.
Proof. by repeat split. Qed.

Example contains_type_name :
  contains "Pow" "<class 'sympy.core.power.Pow'>" = true /\
  contains "Pow" "<class 'sympy.core.mul.Mul'>" = false.
Proof. by split. Qed.

Lemma split_all_space (s : string) : all_space s = true -> split s = [].
Proof.
  induction s as [| c r IH]; cbn; [done |].
  intros [Hc Hr]%andb_true_iff. rewrite Hc. by apply IH.
Qed.

(** *** The bytes of a [char*] *)

Lemma not_nul_of (P : ascii -> bool) (c : ascii) :
  P Ascii.zero = false -> P c = true -> Ascii.eqb c Ascii.zero = false.
Proof.
  intros Hzero Hc. destruct (Ascii.eqb c Ascii.zero) eqn:Heq; [| done].
  apply Ascii.eqb_eq in Heq. congruence.
Qed.

Lemma is_space_not_nul (c : ascii) :
  is_space c = true -> Ascii.eqb c Ascii.zero = false.
Proof. by apply not_nul_of. Qed.

Lemma c_str_nul_free (s : string) : nul_free s = true -> c_str s = s.
Proof.
  induction s as [| c r IH]; cbn; [done |].
  intros [Hc Hr]%andb_true_iff. apply negb_true_iff in Hc.
  rewrite Hc. by rewrite IH.
Qed.

(** Every byte that is no whitespace is in a token. *)
Lemma split_nul_free (s : string) :
  Forall (fun item => nul_free item = true) (split s) -> nul_free s = true.
Proof.
  induction s as [| c r IH]; [done |].
  cbn [split nul_free].
  destruct (is_space c) eqn:Hc.
  { intros H. rewrite (is_space_not_nul c Hc). cbn. by apply IH. }
  destruct r as [| c' r'].
  { intros H. apply Forall_inv in H. exact H. }
  destruct (is_space c') eqn:Hc'.
  { intros [H Hr]%Forall_cons. cbn in H.
    apply andb_true_iff in H as [H _]. rewrite H. cbn. by apply IH. }
  destruct (split (String c' r')) as [| t ts].
  { intros H. apply Forall_inv in H. cbn in H.
    apply andb_true_iff in H as [H _]. rewrite H. cbn.
    apply IH. constructor. }
  intros [H Hts]%Forall_cons. cbn in H.
  apply andb_true_iff in H as [H Ht]. rewrite H. cbn.
  apply IH. by constructor.
Qed.

Lemma unit_str_split (unit : string) :
  Forall (fun item => nul_free item = true) (split unit) ->
  unit_str unit = split unit.
Proof.
  intros H%split_nul_free. unfold unit_str. by rewrite c_str_nul_free.
Qed.

Lemma operation_nul_free (item : string) :
  item ∈ __OPERATION_LIST__ -> nul_free item = true.
Proof.
  intros Hin. unfold __OPERATION_LIST__ in Hin.
  repeat (apply elem_of_cons in Hin as [-> | Hin]; [reflexivity |]).
  by apply elem_of_nil in Hin.
Qed.

Lemma digits_nul_free (s : string) :
  forall acc z, digits acc s = Some z -> nul_free s = true.
Proof.
  induction s as [| c r IH]; intros acc z; cbn; [done |].
  destruct (digit c) as [d |] eqn:Hd; [| done].
  intros H%IH. rewrite H.
  assert (Hc : Ascii.eqb c Ascii.zero = false).
  { apply (not_nul_of (fun c => bool_decide (is_Some (digit c))));
      [reflexivity |].
    apply bool_decide_eq_true_2. by rewrite Hd. }
  by rewrite Hc.
Qed.

Lemma py_int_nul_free (item : string) (z : Z) :
  py_int item = Some z -> nul_free item = true.
Proof.
  destruct item as [| c r]; [done |]. unfold py_int.
  destruct (Ascii.eqb c "-") eqn:Hminus.
  { apply Ascii.eqb_eq in Hminus as ->.
    destruct r as [| c' r']; [done |].
    destruct (digits 0 (String c' r')) as [z' |] eqn:Hd; [| done].
    intros _. apply digits_nul_free in Hd.
    change (negb (Ascii.eqb "-" Ascii.zero) && nul_free (String c' r')
            = true).
    by rewrite Hd. }
  destruct (Ascii.eqb c "+") eqn:Hplus.
  { apply Ascii.eqb_eq in Hplus as ->.
    destruct r as [| c' r']; [done |].
    intros Hd%digits_nul_free.
    change (negb (Ascii.eqb "+" Ascii.zero) && nul_free (String c' r')
            = true).
    by rewrite Hd. }
  apply digits_nul_free.
Qed.

(** *** The first loop *)

Lemma py_int_not_operation (item : string) (z : Z) :
  py_int item = Some z -> item ∉ __OPERATION_LIST__.
Proof.
  intros Hint Hin. unfold __OPERATION_LIST__ in Hin.
  repeat (apply elem_of_cons in Hin as [-> | Hin];
          [vm_compute in Hint; discriminate |]).
  by apply elem_of_nil in Hin.
Qed.

Lemma scan_operation item rest (unit_list : list obj) operand_list :
  item ∈ __OPERATION_LIST__ ->
  scan (item :: rest) unit_list operand_list =
  scan rest unit_list (operand_list ++ [item])%list.
Proof. intros H. cbn [scan]. by rewrite bool_decide_eq_true_2. Qed.

Lemma scan_int item z rest (unit_list : list obj) operand_list :
  py_int item = Some z ->
  scan (item :: rest) unit_list operand_list =
  scan rest (unit_list ++ [PyInt z])%list operand_list.
Proof.
  intros H. cbn [scan].
  rewrite bool_decide_eq_false_2 by eauto using py_int_not_operation.
  by rewrite H.
Qed.

Lemma scan_unit item u rest (unit_list : list obj) operand_list :
  item ∉ __OPERATION_LIST__ -> py_int item = None ->
  __UNITS__ !! item = Some u ->
  scan (item :: rest) unit_list operand_list =
  scan rest (unit_list ++ [PySym u])%list operand_list.
Proof.
  intros Hop Hint Hu. cbn [scan].
  rewrite bool_decide_eq_false_2 by done. by rewrite Hint, Hu.
Qed.

Lemma scan_unknown item rest (unit_list : list obj) operand_list :
  item ∉ __OPERATION_LIST__ -> py_int item = None ->
  __UNITS__ !! item = None ->
  scan (item :: rest) unit_list operand_list =
  Raise (UnitError (item ++ " is not a valid unit.")).
Proof.
  intros Hop Hint Hu. cbn [scan].
  rewrite bool_decide_eq_false_2 by done. by rewrite Hint, Hu.
Qed.

Lemma scan_operations unit_str (unit_list : list obj) operand_list :
  Forall (fun item => item ∈ __OPERATION_LIST__) unit_str ->
  scan unit_str unit_list operand_list =
  Ok (unit_list, (operand_list ++ unit_str)%list).
Proof.
  intros H. revert operand_list.
  induction H as [| item rest Hitem _ IH]; intros operand_list.
  - by rewrite app_nil_r.
  - rewrite scan_operation by done. rewrite IH. by rewrite <- app_assoc.
Qed.

(** C9.  A string with no operand token (no token at all, as the empty
    string or a string of whitespace, or operator tokens only) makes
    [get_unit_from_str] fail on [unit_list[0]] with the index error, and not
    with a unit error. *)
Theorem get_unit_from_str_no_operand (unit : string) :
  Forall (fun item => item ∈ __OPERATION_LIST__) (split unit) ->
  get_unit_from_str unit = Raise IndexError.
Proof.
  intros H. unfold get_unit_from_str.
  rewrite unit_str_split
    by (eapply Forall_impl; [exact H | apply operation_nul_free]).
  by rewrite scan_operations.
Qed.

(** C10.  A string made of one integer-literal token resolves to the plain
    integer of that token, a [PyInt] and not an expression. *)
Theorem get_unit_from_str_integer (unit item : string) (z : Z) :
  split unit = [item] -> py_int item = Some z ->
  get_unit_from_str unit = Ok (PyInt z).
Proof.
  intros Hsplit Hint. unfold get_unit_from_str.
  rewrite unit_str_split
    by (rewrite Hsplit; repeat constructor; by eapply py_int_nul_free).
  rewrite Hsplit. by erewrite scan_int.
Qed.

(** C2, as the code has it.  With [m] and [s] registered as the meter and
    the second, ["m / s ** 2"] resolves to the power 2 of the quotient of the
    meter by the second: the accumulator starts as the first operand and
    takes each operator in turn, the division before the power. *)
Theorem get_unit_from_str_left_to_right (meter second : Expr) :
  __UNITS__ !! "m" = Some meter -> __UNITS__ !! "s" = Some second ->
  get_unit_from_str "m / s ** 2" =
  Ok (PySym (e_binop OPow (e_binop ODiv meter second) (sympify_int 2))).
Proof.
  intros Hm Hs. unfold get_unit_from_str.
  replace (unit_str "m / s ** 2") with ["m"; "/"; "s"; "**"; "2"]
    by (vm_compute; reflexivity).
  erewrite scan_unit; [| not_in_operations | reflexivity | exact Hm].
  rewrite scan_operation by in_operations.
  erewrite scan_unit; [| not_in_operations | reflexivity | exact Hs].
  rewrite scan_operation by in_operations.
  erewrite scan_int by reflexivity.
  reflexivity.
Qed.

(** *** The second loop *)

Lemma combine_past_end operand_list i (unit_obj item : obj) :
  (length operand_list <= i - 1)%nat ->
  combine operand_list i unit_obj item = Ok unit_obj.
Proof.
  intros H. unfold combine, getitem.
  by rewrite lookup_ge_None_2.
Qed.

Lemma reduce_past_end operand_list (items : list obj) :
  forall i unit_obj,
    (length operand_list <= i - 1)%nat ->
    reduce operand_list i items unit_obj = Ok unit_obj.
Proof.
  induction items as [| item rest IH]; intros i unit_obj H; cbn [reduce].
  - reflexivity.
  - rewrite combine_past_end by done. cbn. apply IH. lia.
Qed.

Lemma reduce_take operand_list (items : list obj) :
  forall i unit_obj,
    (1 <= i)%nat ->
    reduce operand_list i items unit_obj =
    reduce operand_list i (take (S (length operand_list) - i) items) unit_obj.
Proof.
  induction items as [| item rest IH]; intros i unit_obj Hi.
  - by rewrite take_nil.
  - destruct (decide (length operand_list <= i - 1)%nat) as [Hge | Hlt].
    + by rewrite !reduce_past_end.
    + replace (S (length operand_list) - i)%nat
        with (S (S (length operand_list) - S i)) by lia.
      cbn [take reduce].
      destruct (combine operand_list i unit_obj item); cbn; [| done].
      apply IH. lia.
Qed.

Lemma combine_not_IndexError operand_list i (unit_obj item : obj) :
  combine operand_list i unit_obj item <> Raise IndexError.
Proof.
  unfold combine, except_IndexError.
  match goal with
  | |- match ?r with _ => _ end <> _ => destruct r as [? | []]
  end; done.
Qed.

Lemma reduce_not_IndexError operand_list (items : list obj) :
  forall i unit_obj,
    reduce operand_list i items unit_obj <> Raise IndexError.
Proof.
  induction items as [| item rest IH]; intros i unit_obj; cbn [reduce].
  - done.
  - pose proof (combine_not_IndexError operand_list i unit_obj item) as Hc.
    destruct (combine operand_list i unit_obj item) as [x | e]; cbn.
    + apply IH.
    + congruence.
Qed.

Lemma scan_operands unit_str :
  forall (unit_list : list obj) operand_list unit_list' operand_list',
    scan unit_str unit_list operand_list = Ok (unit_list', operand_list') ->
    Forall is_operand unit_list -> Forall is_operand unit_list'.
Proof.
  induction unit_str as [| item rest IH];
    intros unit_list operand_list unit_list' operand_list' Hscan Hall;
    cbn [scan] in Hscan.
  - by inversion Hscan; subst.
  - case_bool_decide; [by eapply IH |].
    destruct (py_int item) as [z |].
    + eapply IH; [exact Hscan |].
      apply Forall_app; split; [done |]. by repeat constructor.
    + destruct (__UNITS__ !! item) as [u |]; [| discriminate].
      eapply IH; [exact Hscan |].
      apply Forall_app; split; [done |]. by repeat constructor.
Qed.

Lemma py_binop_sym op (a : Expr) (item : obj) :
  is_operand item -> exists b, py_binop op (PySym a) item = Ok (PySym b).
Proof. destruct item; cbn; intros H; try done; eauto. Qed.

Lemma combine_sym operand_list i (a : Expr) (item : obj) :
  is_operand item ->
  exists b, combine operand_list i (PySym a) item = Ok (PySym b).
Proof.
  intros Hitem. unfold combine, getitem.
  destruct (operand_list !! (i - 1)%nat) as [op |]; cbn -[py_binop];
    [| eauto].
  destruct (py_binop_sym OMul a item Hitem) as [b1 ->].
  destruct (py_binop_sym ODiv a item Hitem) as [b2 ->].
  destruct (py_binop_sym OAdd a item Hitem) as [b3 ->].
  destruct (py_binop_sym OSub a item Hitem) as [b4 ->].
  destruct (py_binop_sym OPow a item Hitem) as [b5 ->].
  repeat match goal with
         | |- context [if ?c then _ else _] => destruct c
         end; cbn; eauto.
Qed.

Lemma reduce_sym operand_list (items : list obj) :
  Forall is_operand items ->
  forall i (a : Expr),
    exists b, reduce operand_list i items (PySym a) = Ok (PySym b).
Proof.
  induction 1 as [| item rest Hitem _ IH]; intros i a; cbn [reduce].
  - eauto.
  - destruct (combine_sym operand_list i a item Hitem) as [b ->]. cbn.
    apply IH.
Qed.

(** C8, as the code has it.  On a tokenized string with more operands than
    operators, every step whose operator index is past the end of the
    operator sequence returns the accumulator as it was, so the call gives
    what the reduction of the first [len(operand_list) + 1] operands gives;
    it never raises the index error, and it returns whenever the first
    operand is an expression.  An error of an arithmetic step that has its
    operator is not caught. *)
Theorem get_unit_from_str_more_operands (unit : string)
    (unit_list : list obj) (operand_list : list string) :
  scan (unit_str unit) [] [] = Ok (unit_list, operand_list) ->
  (length operand_list < length unit_list)%nat ->
  exists unit_obj,
    unit_list !! 0%nat = Some unit_obj /\
    (forall i acc item,
        (length operand_list < i)%nat ->
        combine operand_list i acc item = Ok acc) /\
    get_unit_from_str unit =
      reduce operand_list 1
        (take (length operand_list) (drop 1 unit_list)) unit_obj /\
    get_unit_from_str unit <> Raise IndexError /\
    (forall e, unit_obj = PySym e ->
               exists r, get_unit_from_str unit = Ok (PySym r)).
Proof.
  intros Hscan Hlen.
  destruct unit_list as [| unit_obj items]; [cbn in Hlen; lia |].
  exists unit_obj. split; [done |].
  assert (Hcall : get_unit_from_str unit =
                  reduce operand_list 1 items unit_obj).
  { unfold get_unit_from_str. rewrite Hscan. reflexivity. }
  split; [| split; [| split]].
  - intros i acc item Hi. apply combine_past_end. lia.
  - rewrite Hcall. rewrite reduce_take by lia. cbn [drop].
    by replace (S (length operand_list) - 1)%nat
         with (length operand_list) by lia.
  - rewrite Hcall. apply reduce_not_IndexError.
  - intros e ->. rewrite Hcall.
    apply reduce_sym.
    eapply scan_operands in Hscan; [| constructor].
    by inversion Hscan.
Qed.

(** *** decompose_expr *)

Lemma discriminant_Pow (expr : obj) :
  discriminant_of expr = Pow_ -> contains "Pow" (py_type_str expr) = true.
Proof.
  unfold discriminant_of.
  destruct (contains "Pow" _); [done |].
  by destruct (contains "Mul" _).
Qed.

Lemma discriminant_Mul (expr : obj) :
  discriminant_of expr = Mul_ ->
  contains "Pow" (py_type_str expr) = false /\
  contains "Mul" (py_type_str expr) = true.
Proof.
  unfold discriminant_of.
  destruct (contains "Pow" _); [done |].
  by destruct (contains "Mul" _).
Qed.

Lemma product_sym (rest : list Expr) :
  forall u : Expr,
    product (PySym <$> rest) (PySym u) =
    Ok (PySym (foldl (e_binop OMul) u rest)).
Proof.
  induction rest as [| x rest IH]; intros u; cbn.
  - reflexivity.
  - apply IH.
Qed.

(** C4.  On an expression whose discriminant is a power, [decompose_expr]
    returns the magnitude 1 and the expression itself, whole, as the
    unit. *)
Theorem decompose_expr_power (expr : obj) :
  discriminant_of expr = Pow_ ->
  decompose_expr expr = Ok (PyInt 1, expr).
Proof.
  intros H%discriminant_Pow. unfold decompose_expr. by rewrite H.
Qed.

(** C5.  On a product whose first operand converts to the float [f],
    [decompose_expr] returns [f] and, as the unit, the product from left to
    right of the operands that remain ([u] first), which is [u] itself when
    it is the only one. *)
Theorem decompose_expr_product_float (e value u : Expr) (rest : list Expr)
    (f : Float) :
  discriminant_of (PySym e) = Mul_ ->
  args e = value :: u :: rest ->
  to_float value = Some f ->
  decompose_expr (PySym e) =
    Ok (PyFloat f, PySym (foldl (e_binop OMul) u rest)) /\
  (rest = [] -> decompose_expr (PySym e) = Ok (PyFloat f, PySym u)).
Proof.
  intros [HPow HMul]%discriminant_Mul Hargs Hfloat.
  assert (H : decompose_expr (PySym e) =
              Ok (PyFloat f, PySym (foldl (e_binop OMul) u rest))).
  { unfold decompose_expr. rewrite HPow, HMul.
    cbn [py_args]. rewrite Hargs. cbn -[split_product].
    unfold split_product. cbn [py_float]. rewrite Hfloat.
    cbn -[product]. destruct rest as [| x rest]; cbn -[product].
    - reflexivity.
    - pose proof (product_sym (x :: rest) u) as Hp. cbn -[product] in Hp.
      by rewrite Hp. }
  split; [exact H |]. intros ->. exact H.
Qed.

(** C6.  On a product whose first operand does not convert to a float,
    [decompose_expr] returns, and returns the magnitude 1 with the whole
    expression as the unit. *)
Theorem decompose_expr_product_symbolic (e value : Expr) (rest : list Expr) :
  discriminant_of (PySym e) = Mul_ ->
  args e = value :: rest ->
  to_float value = None ->
  decompose_expr (PySym e) = Ok (PyInt 1, PySym e).
Proof.
  intros [HPow HMul]%discriminant_Mul Hargs Hfloat.
  unfold decompose_expr. rewrite HPow, HMul.
  cbn [py_args]. rewrite Hargs. cbn -[split_product].
  unfold split_product. cbn [py_float]. by rewrite Hfloat.
Qed.

Lemma decompose_expr_magnitude (expr value unit : obj) :
  decompose_expr expr = Ok (value, unit) -> is_magnitude value.
Proof.
  unfold decompose_expr.
  destruct (contains "Pow" _); [by intros [= <- _] |].
  destruct (contains "Mul" _); [| done].
  destruct (py_args expr) as [expr_args |]; [cbn | done].
  destruct (getitem expr_args 0) as [v |]; [cbn | done].
  unfold split_product.
  destruct (py_float v) as [f | err]; cbn.
  - match goal with
    | |- context [mbind _ ?r] => destruct r as [unit_obj | []]
    end; cbn; try done; by intros [= <- _].
  - destruct err; try done; by intros [= <- _].
Qed.

(** *** get_dimension *)

Lemma unit_kind_Pow (unit : obj) :
  unit_kind_of unit = Pow_kind ->
  contains "Quantity" (py_type_str unit) = false /\
  contains "Pow" (py_type_str unit) = true.
Proof.
  unfold unit_kind_of.
  destruct (contains "Quantity" _); [done |].
  by destruct (contains "Pow" _).
Qed.

Lemma unit_kind_Quantity (unit : obj) :
  unit_kind_of unit = Quantity_kind ->
  contains "Quantity" (py_type_str unit) = true.
Proof.
  unfold unit_kind_of.
  destruct (contains "Quantity" _); [done |].
  by destruct (contains "Pow" _).
Qed.

Lemma unit_kind_Other (unit : obj) :
  unit_kind_of unit = Other_kind ->
  contains "Quantity" (py_type_str unit) = false /\
  contains "Pow" (py_type_str unit) = false.
Proof.
  unfold unit_kind_of.
  destruct (contains "Quantity" _); [done |].
  by destruct (contains "Pow" _).
Qed.

(** The power branch, once reached with the two operands. *)
Lemma get_dimension_power_branch (x unit unit_base exp : obj) :
  get_unit x = Ok unit ->
  unit_kind_of unit = Pow_kind ->
  py_args unit = Ok [unit_base; exp] ->
  get_dimension x =
  except_AttributeError
    (dimension_base ← py_getattr unit_base "dimension";
     if py_eq dimension_base length_ then
       if py_eq exp (PyInt 2) then Ok area
       else if py_eq exp (PyInt 3) then Ok volume
       else Ok Zero
     else Ok Zero).
Proof.
  intros Hunit [HQ HP]%unit_kind_Pow Hargs.
  unfold get_dimension. rewrite Hunit. cbn [mbind result_bind].
  rewrite HQ, HP, Hargs. reflexivity.
Qed.

(** C7.  On a resolved unit that is a power of operands [(base, exp)],
    [get_dimension] returns [area] for a base of dimension [length] and the
    exponent 2, [volume] for that dimension and the exponent 3, and [Zero]
    for another exponent, for a base whose dimension is not [length], and
    for a base without the attribute [dimension] (the read raises
    [AttributeError]). *)
Theorem get_dimension_power (x : obj) (e base exp : Expr) :
  get_unit x = Ok (PySym e) ->
  unit_kind_of (PySym e) = Pow_kind ->
  args e = [base; exp] ->
  (forall d, getattr (PySym base) "dimension" = Ok d ->
             py_eq d length_ = true ->
             py_eq (PySym exp) (PyInt 2) = true ->
             get_dimension x = Ok area) /\
  (forall d, getattr (PySym base) "dimension" = Ok d ->
             py_eq d length_ = true ->
             py_eq (PySym exp) (PyInt 2) = false ->
             py_eq (PySym exp) (PyInt 3) = true ->
             get_dimension x = Ok volume) /\
  (forall d, getattr (PySym base) "dimension" = Ok d ->
             py_eq d length_ = true ->
             py_eq (PySym exp) (PyInt 2) = false ->
             py_eq (PySym exp) (PyInt 3) = false ->
             get_dimension x = Ok Zero) /\
  (forall d, getattr (PySym base) "dimension" = Ok d ->
             py_eq d length_ = false ->
             get_dimension x = Ok Zero) /\
  (getattr (PySym base) "dimension" = Raise AttributeError ->
   get_dimension x = Ok Zero).
Proof.
  intros Hunit Hkind Hargs.
  assert (Hbranch := get_dimension_power_branch x (PySym e) (PySym base)
                       (PySym exp) Hunit Hkind).
  cbn [py_args] in Hbranch. rewrite Hargs in Hbranch.
  specialize (Hbranch eq_refl). rewrite Hbranch. unfold py_getattr.
  repeat split.
  - intros d -> Hlen H2. cbn. by rewrite Hlen, H2.
  - intros d -> Hlen H2 H3. cbn. by rewrite Hlen, H2, H3.
  - intros d -> Hlen H2 H3. cbn. by rewrite Hlen, H2, H3.
  - intros d -> Hlen. cbn. by rewrite Hlen.
  - by intros ->.
Qed.

(** C3, as the code has it.  [get_dimension] is not total.  An error of
    [get_unit] leaves it as it is, and so does an error other than
    [AttributeError] of an attribute read ([dimension] of a quantity or of
    the base of a power, [name] of a dimension).  It returns [Zero] when
    such a read raises [AttributeError], and on a unit that is neither a
    quantity nor a power. *)
Theorem get_dimension_resolved (x : obj) :
  (forall err, get_unit x = Raise err -> get_dimension x = Raise err) /\
  (forall unit,
      get_unit x = Ok unit ->
      (unit_kind_of unit = Quantity_kind ->
       (getattr unit "dimension" = Raise AttributeError ->
        get_dimension x = Ok Zero) /\
       (forall err, getattr unit "dimension" = Raise err ->
                    err <> AttributeError ->
                    get_dimension x = Raise err) /\
       (forall d, getattr unit "dimension" = Ok d ->
                  getattr d "name" = Raise AttributeError ->
                  get_dimension x = Ok Zero) /\
       (forall d err, getattr unit "dimension" = Ok d ->
                      getattr d "name" = Raise err ->
                      err <> AttributeError ->
                      get_dimension x = Raise err)) /\
      (unit_kind_of unit = Pow_kind ->
       forall unit_base exp,
         py_args unit = Ok [unit_base; exp] ->
         (getattr unit_base "dimension" = Raise AttributeError ->
          get_dimension x = Ok Zero) /\
         (forall err, getattr unit_base "dimension" = Raise err ->
                      err <> AttributeError ->
                      get_dimension x = Raise err)) /\
      (unit_kind_of unit = Other_kind -> get_dimension x = Ok Zero)).
Proof.
  split.
  { intros err H. unfold get_dimension. by rewrite H. }
  intros unit Hunit.
  assert (Hother : forall err,
             err <> AttributeError ->
             except_AttributeError (Raise err) = Raise err).
  { intros err Herr. by destruct err. }
  split; [| split].
  - intros HQ%unit_kind_Quantity.
    assert (Hbranch : get_dimension x =
              except_AttributeError
                (dimension ← py_getattr unit "dimension";
                 name ← py_getattr dimension "name";
                 if py_eq name One then Ok Zero else Ok dimension)).
    { unfold get_dimension. rewrite Hunit. cbn [mbind result_bind].
      by rewrite HQ. }
    rewrite Hbranch. unfold py_getattr.
    split; [| split; [| split]].
    + by intros ->.
    + intros err -> Herr. by apply Hother.
    + intros d -> Hn. cbn. by rewrite Hn.
    + intros d err -> Hn Herr. cbn. rewrite Hn. by apply Hother.
  - intros Hkind unit_base exp Hargs.
    rewrite (get_dimension_power_branch x unit unit_base exp) by done.
    unfold py_getattr. split.
    + by intros ->.
    + intros err -> Herr. by apply Hother.
  - intros [HQ HP]%unit_kind_Other.
    unfold get_dimension. rewrite Hunit. cbn [mbind result_bind].
    by rewrite HQ, HP.
Qed.

(** *** decompose_expr_array *)

Lemma mapM_decompose_expr_magnitudes (items : list obj) :
  forall pairs,
    mapM decompose_expr items = Ok pairs ->
    Forall is_magnitude (pairs.*1).
Proof.
  induction items as [| item rest IH]; intros pairs; cbn.
  - by intros [= <-].
  - destruct (decompose_expr item) as [[value unit] |] eqn:Hd; [cbn | done].
    destruct (mapM decompose_expr rest) as [pairs' |]; [cbn | done].
    intros [= <-]. cbn. constructor; [| by apply IH].
    by eapply decompose_expr_magnitude.
Qed.

Lemma astype_double_magnitudes shape (values : list obj) :
  Forall is_magnitude values ->
  exists values', astype_double (PyArray shape values) =
                  Ok (PyArray shape values').
Proof.
  intros H. unfold astype_double.
  assert (exists l, mapM (fun x => PyFloat <$> py_float x) values = Ok l)
    as [l ->]; [| cbn; eauto].
  induction H as [| value rest Hvalue _ [l IH]]; cbn; [eauto |].
  rewrite IH.
  destruct value as [| z | f | | |]; try done; cbn; eauto.
Qed.

(** In a one-dimensional array only the first unit decides: once every
    element decomposes, and the first unit equals itself, the call returns
    the magnitudes with the first unit, whatever the other units are. *)
Lemma decompose_expr_array_first_unit (items : list obj) (value0 : obj)
    (unit0 : Expr) (rest : list (obj * obj)) :
  mapM decompose_expr items = Ok ((value0, PySym unit0) :: rest) ->
  py_eq (PySym unit0) (PySym unit0) = true ->
  exists values,
    decompose_expr_array (PyArray [length items] items) =
    Ok (PyArray [length items] values, PySym unit0).
Proof.
  intros Hall Hrefl.
  assert (Hmag := mapM_decompose_expr_magnitudes _ _ Hall).
  destruct (astype_double_magnitudes [length items] _ Hmag)
    as [values Hcast].
  exists values.
  unfold decompose_expr_array. rewrite Hall. cbn [mbind result_bind].
  destruct items as [| item items]; [by cbn in Hall |].
  cbn [length getitem0 Nat.eqb fmap list_fmap snd getitem lookup
       list_lookup mbind result_bind].
  cbn [np_equal fmap list_fmap np_any existsb]. rewrite Hrefl.
  cbn [orb]. cbn [length fmap list_fmap] in Hcast. by rewrite Hcast.
Qed.

End Properties.

(** ** Further properties of the resolver, for every engine *)

Section Resolver.
Context {E : Engine}.

#[local] Abbreviation obj := (pyobj Expr Float).

(** *** The first loop: what it keeps and what it rejects *)

Lemma scan_raises (unit_str : list string) :
  forall (unit_list : list obj) operand_list err,
    scan unit_str unit_list operand_list = Raise err ->
    exists item, item ∈ unit_str /\ unknown item /\
                 err = UnitError (item ++ " is not a valid unit.").
Proof.
  induction unit_str as [| item rest IH]; intros unit_list operand_list err;
    cbn [scan]; [done |].
  case_bool_decide as Hop.
  { intros (x & Hx & H)%IH. exists x. split; [by right | done]. }
  destruct (py_int item) as [z |] eqn:Hint.
  { intros (x & Hx & H)%IH. exists x. split; [by right | done]. }
  destruct (__UNITS__ !! item) as [u |] eqn:Hu.
  { intros (x & Hx & H)%IH. exists x. split; [by right | done]. }
  intros [= <-]. exists item. split; [by left | done].
Qed.

Lemma scan_grows (unit_str : list string) :
  forall (unit_list : list obj) operand_list unit_list' operand_list',
    scan unit_str unit_list operand_list = Ok (unit_list', operand_list') ->
    (length unit_list <= length unit_list')%nat.
Proof.
  induction unit_str as [| item rest IH];
    intros unit_list operand_list unit_list' operand_list'; cbn [scan].
  - by intros [= <- _].
  - case_bool_decide as Hop; [apply IH |].
    destruct (py_int item) as [z |].
    { intros Hlen%IH. rewrite length_app in Hlen. cbn in Hlen. lia. }
    destruct (__UNITS__ !! item) as [u |]; [| done].
    intros Hlen%IH. rewrite length_app in Hlen. cbn in Hlen. lia.
Qed.

Lemma scan_no_operand (unit_str : list string) :
  forall (operand_list : list string) operand_list',
    scan unit_str ([] : list obj) operand_list = Ok ([], operand_list') ->
    Forall (fun item => item ∈ __OPERATION_LIST__) unit_str.
Proof.
  induction unit_str as [| item rest IH]; intros operand_list operand_list';
    cbn [scan]; [by constructor |].
  case_bool_decide as Hop.
  { intros H%IH. by constructor. }
  destruct (py_int item) as [z |].
  { intros H%scan_grows. cbn in H. lia. }
  destruct (__UNITS__ !! item) as [u |]; [| done].
  intros H%scan_grows. cbn in H. lia.
Qed.

(** The first loop, token by token: the operators in their order, and the
    other tokens resolved in their order, whatever the places of the ones
    among the others. *)
Lemma scan_partition (unit_str : list string) :
  forall (unit_list : list obj) operand_list,
    scan unit_str unit_list operand_list =
    match scan (filter (fun item => item ∉ __OPERATION_LIST__) unit_str)
            [] [] with
    | Ok (operands, _) =>
        Ok ((unit_list ++ operands)%list,
            (operand_list ++
               filter (fun item => item ∈ __OPERATION_LIST__) unit_str)%list)
    | Raise err => Raise err
    end.
Proof.
  assert (Hfront : forall (toks : list string) (ul : list obj) ol,
             Forall (fun item => item ∉ __OPERATION_LIST__) toks ->
             scan toks ul ol =
             match scan toks [] [] with
             | Ok (operands, _) => Ok ((ul ++ operands)%list, ol)
             | Raise err => Raise err
             end).
  { intros toks. induction toks as [| item rest IH] using rev_ind.
    - intros ul ol _. cbn. by rewrite app_nil_r.
    - intros ul ol [Hrest Hitem]%Forall_app.
      apply Forall_inv in Hitem.
      assert (Hlast : forall (ul' : list obj) ol',
                 scan (rest ++ [item]) ul' ol' =
                 match scan rest ul' ol' with
                 | Ok (a, b) => scan [item] a b
                 | Raise err => Raise err
                 end).
      { clear. induction rest as [| x rest IHr]; intros ul' ol'.
        - reflexivity.
        - cbn [app scan]. case_bool_decide; [apply IHr |].
          destruct (py_int x); [apply IHr |].
          destruct (__UNITS__ !! x); [apply IHr | done]. }
      rewrite !Hlast. rewrite (IH ul ol Hrest).
      destruct (scan rest [] []) as [[operands ops] |]; [| done].
      cbn [scan]. rewrite bool_decide_eq_false_2 by done.
      destruct (py_int item) as [z |]; [by rewrite app_assoc |].
      destruct (__UNITS__ !! item) as [u |]; [| done].
      by rewrite app_assoc. }
  induction unit_str as [| item rest IH]; intros unit_list operand_list.
  - cbn. by rewrite !app_nil_r.
  - cbn [scan]. case_bool_decide as Hop.
    + rewrite IH. rewrite filter_cons_False by (intros H; by apply H).
      rewrite filter_cons_True by done.
      destruct (scan _ [] []) as [[operands ops] |]; [| done].
      by rewrite <- app_assoc.
    + rewrite filter_cons_True by done.
      rewrite (filter_cons_False (fun item => item ∈ __OPERATION_LIST__))
        by done.
      set (others := filter (fun x => x ∉ __OPERATION_LIST__) rest) in *.
      assert (Hothers : Forall (fun x => x ∉ __OPERATION_LIST__) others).
      { apply Forall_forall. intros x Hx.
        by apply list_elem_of_filter in Hx as [Hx _]. }
      cbn [scan]. rewrite bool_decide_eq_false_2 by done.
      destruct (py_int item) as [z |].
      * rewrite IH. fold others. cbn [app].
        rewrite (Hfront others [PyInt z] [] Hothers).
        destruct (scan others [] []) as [[operands ops] |]; [| done].
        by rewrite <- app_assoc.
      * destruct (__UNITS__ !! item) as [u |]; [| done].
        rewrite IH. fold others. cbn [app].
        rewrite (Hfront others [PySym u] [] Hothers).
        destruct (scan others [] []) as [[operands ops] |]; [| done].
        by rewrite <- app_assoc.
Qed.

(** X1.  The first token that the first loop cannot resolve decides the
    call: after tokens that all resolve, a token that is no operator, no
    integer and no key of the registry makes [get_unit_from_str] raise the
    unit error that names it, whatever follows. *)
Theorem get_unit_from_str_unknown_token (unit : string)
    (before after : list string) (item : string) :
  unit_str unit = (before ++ item :: after)%list ->
  Forall resolvable before ->
  unknown item ->
  get_unit_from_str unit =
  Raise (UnitError (item ++ " is not a valid unit.")).
Proof.
  intros Hsplit Hbefore (Hop & Hint & Hu).
  unfold get_unit_from_str. rewrite Hsplit.
  assert (H : forall (ul : list obj) ol,
             scan (before ++ item :: after) ul ol =
             Raise (UnitError (item ++ " is not a valid unit."))).
  { clear Hsplit.
    induction Hbefore as [| x rest Hx _ IH]; intros ul ol; cbn [app scan].
    - rewrite bool_decide_eq_false_2 by done. by rewrite Hint, Hu.
    - case_bool_decide as Hxop; [apply IH |].
      destruct (py_int x) as [z |] eqn:Hxint; [apply IH |].
      destruct (__UNITS__ !! x) as [u |] eqn:Hxu; [apply IH |].
      destruct Hx as [Hx | [[? Hx] | [? Hx]]]; [done | |]; congruence. }
  by rewrite H.
Qed.

(** X2.  The operators and the operands are told apart by what they are and
    not by where they stand: two strings with the same operators in the same
    order and the same other tokens in the same order resolve alike (as
    ["m / s"], ["/ m s"] and ["m s /"] do). *)
Theorem get_unit_from_str_token_places (unit unit' : string) :
  filter (fun item => item ∈ __OPERATION_LIST__) (unit_str unit) =
  filter (fun item => item ∈ __OPERATION_LIST__) (unit_str unit') ->
  filter (fun item => item ∉ __OPERATION_LIST__) (unit_str unit) =
  filter (fun item => item ∉ __OPERATION_LIST__) (unit_str unit') ->
  get_unit_from_str unit = get_unit_from_str unit'.
Proof.
  intros Hops Hothers. unfold get_unit_from_str.
  rewrite (scan_partition (unit_str unit)), (scan_partition (unit_str unit')).
  by rewrite Hops, Hothers.
Qed.

(** X3.  The call fails with the index error exactly when the string has
    no operand token. *)
Theorem get_unit_from_str_IndexError_iff (unit : string) :
  get_unit_from_str unit = Raise IndexError <->
  Forall (fun item => item ∈ __OPERATION_LIST__) (unit_str unit).
Proof.
  split.
  - unfold get_unit_from_str.
    destruct (scan (unit_str unit) [] []) as [[unit_list operand_list] | err]
      eqn:Hscan; cbn.
    + destruct unit_list as [| unit_obj items].
      * intros _. by eapply scan_no_operand.
      * cbn. intros H. by apply reduce_not_IndexError in H.
    + apply scan_raises in Hscan as (item & _ & _ & ->). done.
  - intros H. unfold get_unit_from_str. by rewrite scan_operations.
Qed.

(** *** The second loop as a fold *)

Lemma reduce_shift operand_list (items : list obj) :
  forall i unit_obj op,
    reduce (op :: operand_list) (S (S i)) items unit_obj =
    reduce operand_list (S i) items unit_obj.
Proof.
  induction items as [| item rest IH]; intros i unit_obj op; cbn [reduce].
  - reflexivity.
  - assert (Hc : combine (op :: operand_list) (S (S i)) unit_obj item =
                 combine operand_list (S i) unit_obj item).
    { unfold combine, getitem. cbn [Nat.sub].
      by rewrite Nat.sub_0_r. }
    rewrite Hc.
    destruct (combine operand_list (S i) unit_obj item); cbn; [| done].
    apply IH.
Qed.

Lemma reduce_cons op operand_list (item : obj) rest unit_obj :
  reduce (op :: operand_list) 1 (item :: rest) unit_obj =
  combine [op] 1 unit_obj item ≫= reduce operand_list 1 rest.
Proof.
  cbn [reduce].
  change (combine (op :: operand_list) 1 unit_obj item)
    with (combine [op] 1 unit_obj item).
  destruct (combine [op] 1 unit_obj item); cbn; [| done].
  apply reduce_shift.
Qed.

Lemma py_binop_as_expr o (a e : Expr) (item : obj) :
  as_expr item = Some e ->
  py_binop o (PySym a) item = Ok (PySym (e_binop o a e)).
Proof. destruct item; cbn; intros [= <-]; done. Qed.

Lemma combine_as_expr op (a e : Expr) (item : obj) :
  as_expr item = Some e ->
  combine [op] 1 (PySym a) item =
  Ok (PySym (match operator_of op with
             | Some o => e_binop o a e
             | None => a
             end)).
Proof.
  intros H. unfold combine, getitem, operator_of. cbn -[py_binop].
  repeat match goal with
         | |- context [if String.eqb ?x ?y then _ else _] =>
             destruct (String.eqb x y)
         end; try (by rewrite (py_binop_as_expr _ a e item H)); done.
Qed.

Lemma reduce_fold_ops operand_list :
  forall (items : list obj) (es : list Expr) (a : Expr),
    as_expr <$> items = Some <$> es ->
    reduce operand_list 1 items (PySym a) =
    Ok (PySym (fold_ops a operand_list es)).
Proof.
  induction operand_list as [| op ops IH]; intros items es a Hes.
  - rewrite reduce_past_end by (cbn; lia). by destruct es.
  - destruct items as [| item rest], es as [| e es']; try done.
    cbn in Hes. injection Hes as Hitem Hrest.
    rewrite reduce_cons, (combine_as_expr op a e item Hitem). cbn.
    by apply IH.
Qed.

(** X4.  When the first operand is an expression, the call is the left
    fold of the operators over the operands: the k-th operator of the string
    is applied to the accumulator and the k-th operand after the first, each
    integer operand entering as the engine's integer, with no precedence;
    operands beyond the operators, and operators beyond the operands, change
    nothing. *)
Theorem get_unit_from_str_fold (unit : string) (unit_obj : Expr)
    (items : list obj) (operand_list : list string) (es : list Expr) :
  scan (unit_str unit) [] [] = Ok (PySym unit_obj :: items, operand_list) ->
  as_expr <$> items = Some <$> es ->
  get_unit_from_str unit = Ok (PySym (fold_ops unit_obj operand_list es)).
Proof.
  intros Hscan Hes. unfold get_unit_from_str. rewrite Hscan. cbn.
  by apply reduce_fold_ops.
Qed.

Lemma combine_ints op (a z : Z) :
  op ∈ ["*"; "+"; "-"] ->
  combine [op] 1 (PyInt a : obj) (PyInt z) =
  Ok (PyInt (match operator_of op with
             | Some OMul => a * z
             | Some OAdd => a + z
             | Some OSub => a - z
             | _ => a
             end)).
Proof.
  intros H.
  repeat (apply elem_of_cons in H as [-> | H]; [reflexivity |]).
  by apply elem_of_nil in H.
Qed.

Lemma reduce_fold_ints operand_list :
  Forall (fun op => op ∈ ["*"; "+"; "-"]) operand_list ->
  forall (zs : list Z) (a : Z),
    reduce operand_list 1 (PyInt <$> zs : list obj) (PyInt a) =
    Ok (PyInt (fold_ints a operand_list zs)).
Proof.
  induction 1 as [| op ops Hop _ IH]; intros zs a.
  - rewrite reduce_past_end by (cbn; lia). by destruct zs.
  - destruct zs as [| z zs]; [done |].
    cbn [fmap list_fmap].
    rewrite reduce_cons, (combine_ints op a z Hop). cbn.
    apply IH.
Qed.

(** X5.  A string of integers joined by [*], [+] and [-] is evaluated in
    the integers from left to right, without precedence (["2 + 3 * 4"] is
    20), and the result is a plain integer. *)
Theorem get_unit_from_str_integers (unit : string) (z : Z) (zs : list Z)
    (operand_list : list string) :
  scan (unit_str unit) [] [] = Ok (PyInt <$> z :: zs, operand_list) ->
  Forall (fun op => op ∈ ["*"; "+"; "-"]) operand_list ->
  get_unit_from_str unit = Ok (PyInt (fold_ints z operand_list zs)).
Proof.
  intros Hscan Hops. unfold get_unit_from_str. rewrite Hscan. cbn.
  by apply reduce_fold_ints.
Qed.

(** *** Operators in surplus *)

Lemma reduce_surplus operand_list extra (items : list obj) :
  forall i unit_obj,
    (1 <= i)%nat ->
    (i - 1 + length items <= length operand_list)%nat ->
    reduce (operand_list ++ extra) i items unit_obj =
    reduce operand_list i items unit_obj.
Proof.
  induction items as [| item rest IH]; intros i unit_obj Hi Hlen;
    cbn [reduce]; [done |].
  cbn [length] in Hlen.
  assert (Hc : combine (operand_list ++ extra) i unit_obj item =
               combine operand_list i unit_obj item).
  { unfold combine, getitem. by rewrite lookup_app_l by lia. }
  rewrite Hc.
  destruct (combine operand_list i unit_obj item); cbn; [| done].
  apply IH; lia.
Qed.

Lemma scan_app_operations (unit_str extra : list string) :
  Forall (fun item => item ∈ __OPERATION_LIST__) extra ->
  forall (unit_list : list obj) operand_list,
    scan (unit_str ++ extra) unit_list operand_list =
    match scan unit_str unit_list operand_list with
    | Ok (a, b) => Ok (a, (b ++ extra)%list)
    | Raise err => Raise err
    end.
Proof.
  intros Hextra.
  induction unit_str as [| item rest IH]; intros unit_list operand_list.
  - cbn [app scan]. by apply scan_operations.
  - cbn [app scan]. case_bool_decide; [apply IH |].
    destruct (py_int item); [apply IH |].
    destruct (__UNITS__ !! item); [apply IH | done].
Qed.

(** X6.  Operators in surplus are never read: when a string has at least
    as many operators as its operands need, adding operator tokens after it
    changes neither the result nor the error. *)
Theorem get_unit_from_str_surplus_operators (unit unit' : string)
    (extra : list string) (unit_list : list obj)
    (operand_list : list string) :
  unit_str unit' = (unit_str unit ++ extra)%list ->
  Forall (fun item => item ∈ __OPERATION_LIST__) extra ->
  scan (unit_str unit) [] [] = Ok (unit_list, operand_list) ->
  (length unit_list <= S (length operand_list))%nat ->
  get_unit_from_str unit' = get_unit_from_str unit.
Proof.
  intros Hsplit Hextra Hscan Hlen. unfold get_unit_from_str.
  rewrite Hsplit, (scan_app_operations _ _ Hextra), Hscan. cbn.
  destruct unit_list as [| unit_obj items]; [done |]. cbn.
  cbn in Hlen. apply reduce_surplus; [lia |]. rewrite length_drop. cbn. lia.
Qed.

End Resolver.

(** ** Further properties of the decomposer and of the classifier *)

Section Decomposer.
Context {E : Engine}.

#[local] Abbreviation obj := (pyobj Expr Float).

(** *** decompose_expr *)

Lemma type_str_not_expression (x : obj) :
  (forall e, x <> PySym e) ->
  contains "Pow" (py_type_str x) = false /\
  contains "Mul" (py_type_str x) = false /\
  contains "Quantity" (py_type_str x) = false.
Proof.
  intros H. destruct x as [| z | f | t | e | shape data];
    try (by repeat split).
  by destruct (H e).
Qed.

(** X7.  [decompose_expr] takes expressions only: on [None], an integer, a
    float, a string or an array it raises the type error that shows the
    object. *)
Theorem decompose_expr_not_expression (x : obj) :
  (forall e, x <> PySym e) ->
  decompose_expr x =
  Raise (TypeError ("Data type " ++ py_str x ++ " not understood.")).
Proof.
  intros (HPow & HMul & _)%type_str_not_expression.
  unfold decompose_expr. by rewrite HPow, HMul.
Qed.

(** What [decompose_expr] returns on an expression, by the number of its
    operands in the product branch. *)
Lemma decompose_expr_cases (e : Expr) (value unit : obj) :
  decompose_expr (PySym e) = Ok (value, unit) ->
  (value = PyInt 1 /\ unit = PySym e) \/
  (exists v u rest f,
      args e = v :: u :: rest /\ to_float v = Some f /\
      value = PyFloat f /\
      unit = PySym (foldl (e_binop OMul) u rest)).
Proof.
  unfold decompose_expr. cbn [py_type_str py_args].
  destruct (contains "Pow" (type_name e)); [intros [= <- <-]; by left |].
  destruct (contains "Mul" (type_name e)); [| done].
  destruct (args e) as [| v [| u rest]] eqn:Hargs; cbn -[split_product].
  - done.
  - unfold split_product. cbn [py_float].
    destruct (to_float v) as [f |]; cbn; [done |].
    intros [= <- <-]. by left.
  - unfold split_product. cbn [py_float].
    destruct (to_float v) as [f |] eqn:Hf; cbn -[product].
    + destruct rest as [| x rest]; cbn -[product].
      * intros [= <- <-]. right. by exists v, u, [], f.
      * pose proof (product_sym (x :: rest) u) as Hp.
        cbn -[product] in Hp. rewrite Hp. cbn.
        intros [= <- <-]. right. by exists v, u, (x :: rest), f.
    + intros [= <- <-]. by left.
Qed.

(** X8.  Whenever [decompose_expr] returns, the magnitude is the integer 1
    or a float, and the return is one of two: the integer 1 with the
    argument itself, unsplit, as the unit; or, on a product with at least
    two operands, the float that the first operand converts to, with the
    product from left to right of the other operands as the unit. *)
Theorem decompose_expr_returns (expr value unit : obj) :
  decompose_expr expr = Ok (value, unit) ->
  is_magnitude value /\
  ((value = PyInt 1 /\ unit = expr) \/
   (discriminant_of expr = Mul_ /\
    exists v u rest f,
      py_args expr = Ok (v :: u :: rest) /\ py_float v = Ok f /\
      value = PyFloat f /\ product rest u = Ok unit)).
Proof.
  unfold decompose_expr, discriminant_of.
  destruct (contains "Pow" (py_type_str expr));
    [intros [= <- <-]; split; [exact I | by left] |].
  destruct (contains "Mul" (py_type_str expr)); [| done].
  destruct (py_args expr) as [expr_args |]; [cbn -[split_product] | done].
  destruct expr_args as [| v [| u rest]]; cbn -[split_product product].
  - done.
  - unfold split_product.
    destruct (py_float v) as [f | err]; cbn.
    + done.
    + destruct err; try done. intros [= <- <-]. split; [exact I | by left].
  - unfold split_product.
    destruct (py_float v) as [f | err] eqn:Hf; cbn -[product].
    + assert (Hunit :
        (if (length rest =? 0)%nat then Ok u else product rest u) =
        product rest u) by (by destruct rest).
      change (drop 0 rest) with rest. rewrite Hunit.
      destruct (product rest u) as [unit_obj | err] eqn:Hp; cbn.
      * intros [= <- <-]. split; [exact I |]. right.
        split; [done |]. by exists v, u, rest, f.
      * destruct err; try done.
        intros [= <- <-]. split; [exact I | by left].
    + destruct err; try done. intros [= <- <-]. split; [exact I | by left].
Qed.

(** *** get_dimension *)

(** X9.  On a resolved unit that is a quantity with a dimension that has a
    name, [get_dimension] returns [Zero] when the name equals [One] and the
    dimension itself otherwise. *)
Theorem get_dimension_quantity (x unit dimension name : obj) :
  get_unit x = Ok unit ->
  unit_kind_of unit = Quantity_kind ->
  getattr unit "dimension" = Ok dimension ->
  getattr dimension "name" = Ok name ->
  (py_eq name One = true -> get_dimension x = Ok Zero) /\
  (py_eq name One = false -> get_dimension x = Ok dimension).
Proof.
  intros Hunit HQ%unit_kind_Quantity Hd Hn.
  assert (H : get_dimension x =
              Ok (if py_eq name One then Zero else dimension)).
  { unfold get_dimension. rewrite Hunit. cbn [mbind result_bind].
    rewrite HQ. unfold py_getattr. rewrite Hd. cbn. rewrite Hn. cbn.
    by destruct (py_eq name One). }
  rewrite H. by split; intros ->.
Qed.

(** X10.  [get_dimension] makes up no tag: what it returns is [Zero],
    [area], [volume], or the [dimension] attribute of the resolved unit. *)
Theorem get_dimension_returns (x d : obj) :
  get_dimension x = Ok d ->
  d = Zero \/ d = area \/ d = volume \/
  (exists unit, get_unit x = Ok unit /\ getattr unit "dimension" = Ok d).
Proof.
  unfold get_dimension.
  destruct (get_unit x) as [unit |]; [cbn [mbind result_bind] | done].
  destruct (contains "Quantity" (py_type_str unit)).
  - unfold py_getattr.
    destruct (getattr unit "dimension") as [dimension | err] eqn:Hd; cbn;
      [| destruct err; cbn; first [done | intros [= <-]; by left]].
    destruct (getattr dimension "name") as [name | err]; cbn;
      [| destruct err; cbn; first [done | intros [= <-]; by left]].
    destruct (py_eq name One); cbn; intros [= <-]; [by left |].
    right; right; right. eauto.
  - destruct (contains "Pow" (py_type_str unit));
      [| intros [= <-]; by left].
    destruct (py_args unit) as [unit_args |]; cbn; [| done].
    destruct (unpack2 unit_args) as [[unit_base exp] |]; cbn; [| done].
    unfold py_getattr.
    destruct (getattr unit_base "dimension") as [dimension_base | err];
      cbn; [| destruct err; cbn; first [done | intros [= <-]; by left]].
    repeat match goal with
           | |- context [if ?c then _ else _] => destruct c
           end; cbn; intros [= <-]; auto.
Qed.

(** *** decompose_expr_array *)

Lemma mapM_raise {A B} (f : A -> result B) (before after : list A) (x : A)
    (ys : list B) (err : exn) :
  mapM f before = Ok ys -> f x = Raise err ->
  mapM f (before ++ x :: after) = Raise err.
Proof.
  revert ys. induction before as [| a before IH]; intros ys; cbn.
  - intros _ ->. done.
  - destruct (f a) as [b |]; cbn; [| done].
    destruct (mapM f before) as [bs |]; cbn; [| done].
    intros _ Hx. by rewrite (IH bs eq_refl Hx).
Qed.

Lemma mapM_decompose_expr_units (items : list obj) :
  forall pairs,
    mapM decompose_expr items = Ok pairs ->
    Forall (fun unit => exists u, unit = PySym u) (pairs.*2).
Proof.
  induction items as [| item rest IH]; intros pairs; cbn.
  - by intros [= <-].
  - destruct (decompose_expr item) as [[value unit] |] eqn:Hd; [cbn | done].
    destruct (mapM decompose_expr rest) as [pairs' |]; [cbn | done].
    intros [= <-]. cbn. constructor; [| by apply IH].
    destruct item as [| z | f | t | e | shape data];
      try (by cbn in Hd).
    apply decompose_expr_cases in Hd
      as [[_ ->] | (_ & u & rest' & _ & _ & _ & _ & ->)]; eauto.
Qed.

Lemma astype_double_floats shape (values : list obj) :
  Forall is_magnitude values ->
  exists fs : list Float,
    astype_double (PyArray shape values) =
    Ok (PyArray shape (PyFloat <$> fs)) /\
    length fs = length values.
Proof.
  intros H. unfold astype_double.
  assert (exists fs : list Float,
             mapM (fun x => PyFloat <$> py_float x) values =
             Ok (PyFloat <$> fs : list obj) /\
             length fs = length values)
    as (fs & -> & Hlen); [| cbn; eauto].
  induction H as [| value rest Hvalue _ (fs & IH & Hlen)]; cbn.
  - by exists [].
  - rewrite IH.
    destruct value as [| z | f | | |]; try done; cbn.
    + exists (float_of_int z :: fs). cbn. by rewrite Hlen.
    + exists (f :: fs). cbn. by rewrite Hlen.
Qed.

(** X11.  The elements are decomposed in order and the first one that
    fails decides: its error is the error of the call, whatever the shape
    and the elements after it. *)
Theorem decompose_expr_array_first_error (shape : list nat)
    (before after : list obj) (x : obj) (pairs : list (obj * obj))
    (err : exn) :
  mapM decompose_expr before = Ok pairs ->
  decompose_expr x = Raise err ->
  decompose_expr_array (PyArray shape (before ++ x :: after)) = Raise err.
Proof.
  intros Hbefore Hx. unfold decompose_expr_array.
  by rewrite (mapM_raise _ _ _ _ _ _ Hbefore Hx).
Qed.

(** X12.  An array without a first entry along its first axis (no axis at
    all, or a first axis of length 0) whose elements decompose makes the
    call fail on [unit[0]] with the index error. *)
Theorem decompose_expr_array_no_first (shape : list nat) (data : list obj)
    (pairs : list (obj * obj)) :
  mapM decompose_expr data = Ok pairs ->
  shape = [] \/ (exists dims, shape = 0%nat :: dims) ->
  decompose_expr_array (PyArray shape data) = Raise IndexError.
Proof.
  intros Hdata Hshape. unfold decompose_expr_array. rewrite Hdata.
  by destruct Hshape as [-> | [dims ->]].
Qed.

(** X13.  An array of two or more axes that has entries along the first
    axis and no element at all is the one input that gets the value error:
    [np.any] of an empty comparison is false. *)
Theorem decompose_expr_array_zero_size (n d : nat) (dims : list nat) :
  (0 < n)%nat ->
  foldr Nat.mul 1%nat (d :: dims) = 0%nat ->
  decompose_expr_array (PyArray (n :: d :: dims) []) =
  Raise (ValueError
    "If the input is an array, the units for all values must be equal.").
Proof.
  intros Hn _. unfold decompose_expr_array. cbn.
  destruct n as [| n]; [lia |]. reflexivity.
Qed.

(** X14.  An array with an element along every axis, whose elements all
    decompose (the first unit being equal to itself), never gets the value
    error, whatever the other units: the call returns an array of floats of
    the same shape and the same number of elements, with [unit[0]], which
    is the first unit for one axis and the first sub-array of units for
    more. *)
Theorem decompose_expr_array_nonempty (n : nat) (dims : list nat)
    (data : list obj) (pairs : list (obj * obj)) (unit0 : obj) :
  (0 < n)%nat ->
  (0 < foldr Nat.mul 1%nat dims)%nat ->
  mapM decompose_expr data = Ok pairs ->
  pairs.*2 !! 0%nat = Some unit0 ->
  py_eq unit0 unit0 = true ->
  exists fs : list Float,
    decompose_expr_array (PyArray (n :: dims) data) =
    Ok (PyArray (n :: dims) (PyFloat <$> fs),
        match dims with
        | [] => unit0
        | _ => PyArray dims (take (foldr Nat.mul 1%nat dims) (pairs.*2))
        end) /\
    length fs = length data.
Proof.
  intros Hn Hdims Hdata Hfirst Hrefl.
  assert (Hmag := mapM_decompose_expr_magnitudes _ _ Hdata).
  assert (Hunits := mapM_decompose_expr_units _ _ Hdata).
  destruct (astype_double_floats (n :: dims) _ Hmag) as (fs & Hcast & Hlen).
  assert (Hlength : length (pairs.*1) = length data).
  { clear -Hdata. revert pairs Hdata.
    induction data as [| x data IH]; intros pairs; cbn.
    - by intros [= <-].
    - destruct (decompose_expr x) as [p |]; cbn; [| done].
      destruct (mapM decompose_expr data) as [ps |]; cbn; [| done].
      intros [= <-]. cbn. by rewrite (IH ps eq_refl). }
  exists fs. split; [| congruence].
  unfold decompose_expr_array. rewrite Hdata. cbn [mbind result_bind].
  destruct (pairs.*2) as [| u0 units] eqn:Hu; [done |].
  injection Hfirst as ->.
  apply Forall_inv in Hunits as [e ->].
  unfold getitem0. destruct n as [| n]; [lia |]. cbn [Nat.eqb].
  destruct dims as [| d dims].
  - cbn [getitem lookup list_lookup mbind result_bind np_equal fmap
         list_fmap np_any existsb].
    rewrite Hrefl. cbn [orb]. by rewrite Hcast.
  - cbn [mbind result_bind].
    destruct (foldr Nat.mul 1%nat (d :: dims)) as [| k]; [lia |].
    cbn [take np_equal imap length Nat.modulo Nat.divmod fst snd Nat.sub
         lookup list_lookup np_any existsb].
    rewrite Nat.sub_diag. cbn [lookup list_lookup].
    rewrite Hrefl. cbn [orb]. by rewrite Hcast.
Qed.

End Decomposer.

(** ** Statements on explicit inputs, in the reference engine *)

Section Explicit.

#[local] Existing Instance Ref.engine.

Ltac evaluate := vm_compute; reflexivity.

(** C1, at a failing input.  The elements of the array decompose to the
    units meter and second, which are not equal, and [decompose_expr_array]
    returns the two magnitudes with the meter: [np.any] is satisfied by the
    first unit being equal to itself. *)
Theorem decompose_expr_array_mixed_units :
  decompose_expr (Ref.float_times 3 Ref.meter) =
    Ok (PyFloat 3%float, PySym Ref.meter) /\
  decompose_expr (Ref.float_times 2 Ref.second) =
    Ok (PyFloat 2%float, PySym Ref.second) /\
  py_eq (PySym Ref.meter) (PySym Ref.second) = false /\
  decompose_expr_array Ref.mixed_array =
    Ok (PyArray [2%nat] [PyFloat 3%float; PyFloat 2%float],
        PySym Ref.meter).
Proof. split; [| split; [| split]]; evaluate. Qed.

(** On the two by two array of [3.0 * meter] the unit returned is
    [unit[0]], the first row of units, and not the meter. *)
Example decompose_expr_array_uniform :
  decompose_expr_array Ref.uniform_array =
  Ok (PyArray [2%nat; 2%nat]
        [PyFloat 3%float; PyFloat 3%float; PyFloat 3%float; PyFloat 3%float],
      PyArray [2%nat] [PySym Ref.meter; PySym Ref.meter]).
Proof. evaluate. Qed.

(** C2, counterexample.  ["m / s ** 2"] resolves to
    [meter ** 2 * second ** -2], which the engine's equality tells apart
    from [meter * second ** -2]. *)
Lemma get_unit_from_str_no_precedence :
  get_unit_from_str "m / s ** 2" =
    Ok (PySym Ref.square_meter_per_square_second) /\
  py_eq (PySym Ref.square_meter_per_square_second)
        (PySym Ref.meter_per_square_second) = false.
Proof. split; evaluate. Qed.

Lemma get_unit_from_str_left_to_right_witness :
  @__UNITS__ Ref.engine !! "m" = Some Ref.meter /\
  @__UNITS__ Ref.engine !! "s" = Some Ref.second /\
  get_unit_from_str "m / s ** 2" =
    Ok (PySym (Ref.binop OPow (Ref.binop ODiv Ref.meter Ref.second)
                 (Ref.Mono (Ref.NInt 2) []))).
Proof.
  split; [evaluate |]. split; [evaluate |].
  apply (get_unit_from_str_left_to_right (E := Ref.engine)
           Ref.meter Ref.second); evaluate.
Defined.

(** C3, counterexample.  [get_dimension] raises: the unit error of
    [get_unit] on a string that names no unit and on a value that is no
    string, no expression and no sentinel; the value error of the
    comparison with the sentinels on an array of several elements; and the
    key error of the read of [dimension] on a quantity that the table of
    dimensions does not know, a failure to read a dimension that does not
    give [Zero]. *)
Lemma get_dimension_raises :
  get_dimension (PyStr "banana") =
    Raise (UnitError "banana is not a valid unit.") /\
  get_dimension (PyInt 7) = Raise (UnitError "7 is not a valid unit.") /\
  get_dimension (PyArray [2%nat] [PyInt 1; PyInt 1]) =
    Raise (ValueError
      ("The truth value of an array with more than one element is "
       ++ "ambiguous. Use a.any() or a.all()")) /\
  get_unit (PySym (Ref.quantity "foo")) = Ok (PySym (Ref.quantity "foo")) /\
  get_dimension (PySym (Ref.quantity "foo")) = Raise KeyError.
Proof. split; [| split; [| split; [| split]]]; evaluate. Qed.

Lemma get_dimension_resolved_witness :
  get_dimension (PyStr "banana") =
    Raise (UnitError "banana is not a valid unit.") /\
  get_dimension (PySym (Ref.quantity "foo")) = Raise KeyError /\
  get_dimension (PyStr "m + s ** 2") = Ok Zero /\
  get_dimension (PyStr "m / s") = Ok Zero.
Proof.
  split; [| split; [| split]].
  - apply (proj1 (get_dimension_resolved (E := Ref.engine)
                    (PyStr "banana"))).
    evaluate.
  - destruct (proj2 (get_dimension_resolved (E := Ref.engine)
                       (PySym (Ref.quantity "foo")))
                (PySym (Ref.quantity "foo")) ltac:(evaluate))
      as (Hquantity & _ & _).
    destruct (Hquantity ltac:(evaluate)) as (_ & Herr & _).
    apply Herr; [evaluate | discriminate].
  - destruct (proj2 (get_dimension_resolved (E := Ref.engine)
                       (PyStr "m + s ** 2"))
                (PySym (Ref.Node OPow (Ref.Node OAdd Ref.meter Ref.second)
                          (Ref.Mono (Ref.NInt 2) [])))
                ltac:(evaluate))
      as (_ & Hpower & _).
    destruct (Hpower ltac:(evaluate)
                (PySym (Ref.Node OAdd Ref.meter Ref.second))
                (PySym (Ref.Mono (Ref.NInt 2) [])) ltac:(evaluate))
      as (Hzero & _).
    apply Hzero. evaluate.
  - destruct (proj2 (get_dimension_resolved (E := Ref.engine)
                       (PyStr "m / s"))
                (PySym (Ref.binop ODiv Ref.meter Ref.second))
                ltac:(evaluate))
      as (_ & _ & Hother).
    apply Hother. evaluate.
Defined.

Lemma decompose_expr_power_witness :
  discriminant_of (PySym Ref.meter_squared) = Pow_ /\
  decompose_expr (PySym Ref.meter_squared) =
    Ok (PyInt 1, PySym Ref.meter_squared).
Proof.
  split; [evaluate |].
  apply (decompose_expr_power (E := Ref.engine) (PySym Ref.meter_squared)).
  evaluate.
Defined.

Lemma decompose_expr_product_float_witness :
  discriminant_of (Ref.float_times 5 Ref.meter) = Mul_ /\
  py_args (Ref.float_times 5 Ref.meter) =
    Ok [PySym (Ref.Mono (Ref.NFlt 5) []); PySym Ref.meter] /\
  to_float (Ref.Mono (Ref.NFlt 5) []) = Some 5%float /\
  decompose_expr (Ref.float_times 5 Ref.meter) =
    Ok (PyFloat 5%float, PySym Ref.meter) /\
  decompose_expr (PySym Ref.five_meter_second) =
    Ok (PyFloat 5%float, PySym (Ref.binop OMul Ref.meter Ref.second)).
Proof.
  split; [evaluate |]. split; [evaluate |]. split; [evaluate |]. split.
  - apply (proj2 (decompose_expr_product_float (E := Ref.engine)
                    (Ref.binop OMul (Ref.Mono (Ref.NFlt 5) []) Ref.meter)
                    (Ref.Mono (Ref.NFlt 5) []) Ref.meter [] 5%float
                    ltac:(evaluate) ltac:(evaluate) ltac:(evaluate))).
    reflexivity.
  - apply (proj1 (decompose_expr_product_float (E := Ref.engine)
                    Ref.five_meter_second
                    (Ref.Mono (Ref.NFlt 5) []) Ref.meter [Ref.second] 5%float
                    ltac:(evaluate) ltac:(evaluate) ltac:(evaluate))).
Defined.

Lemma decompose_expr_product_symbolic_witness :
  discriminant_of (PySym Ref.meter_second) = Mul_ /\
  args Ref.meter_second = [Ref.meter; Ref.second] /\
  to_float Ref.meter = None /\
  decompose_expr (PySym Ref.meter_second) =
    Ok (PyInt 1, PySym Ref.meter_second).
Proof.
  split; [evaluate |]. split; [evaluate |]. split; [evaluate |].
  apply (decompose_expr_product_symbolic (E := Ref.engine)
           Ref.meter_second Ref.meter [Ref.second]); evaluate.
Defined.

Lemma get_dimension_power_witness :
  get_unit (PyStr "m ** 2") = Ok (PySym Ref.meter_squared) /\
  unit_kind_of (PySym Ref.meter_squared) = Pow_kind /\
  args Ref.meter_squared = [Ref.meter; Ref.Mono (Ref.NInt 2) []] /\
  getattr (PySym Ref.meter) "dimension" = Ok length_ /\
  get_dimension (PyStr "m ** 2") = Ok area /\
  get_dimension (PyStr "m ** 3") = Ok volume /\
  get_dimension (PyStr "m ** 4") = Ok Zero /\
  get_dimension (PyStr "s ** 2") = Ok Zero /\
  get_dimension (PyStr "m + s ** 2") = Ok Zero.
Proof.
  split; [evaluate |]. split; [evaluate |]. split; [evaluate |].
  split; [evaluate |].
  split; [| split; [| split; [| split]]].
  - destruct (get_dimension_power (E := Ref.engine) (PyStr "m ** 2")
                (Ref.Mono (Ref.NInt 1) [("meter", 2)])
                Ref.meter (Ref.Mono (Ref.NInt 2) [])
                ltac:(evaluate) ltac:(evaluate) ltac:(evaluate))
      as (Harea & _).
    eapply Harea; evaluate.
  - destruct (get_dimension_power (E := Ref.engine) (PyStr "m ** 3")
                (Ref.Mono (Ref.NInt 1) [("meter", 3)])
                Ref.meter (Ref.Mono (Ref.NInt 3) [])
                ltac:(evaluate) ltac:(evaluate) ltac:(evaluate))
      as (_ & Hvolume & _).
    eapply Hvolume; evaluate.
  - destruct (get_dimension_power (E := Ref.engine) (PyStr "m ** 4")
                (Ref.Mono (Ref.NInt 1) [("meter", 4)])
                Ref.meter (Ref.Mono (Ref.NInt 4) [])
                ltac:(evaluate) ltac:(evaluate) ltac:(evaluate))
      as (_ & _ & Hzero & _).
    eapply Hzero; evaluate.
  - destruct (get_dimension_power (E := Ref.engine) (PyStr "s ** 2")
                (Ref.Mono (Ref.NInt 1) [("second", 2)])
                Ref.second (Ref.Mono (Ref.NInt 2) [])
                ltac:(evaluate) ltac:(evaluate) ltac:(evaluate))
      as (_ & _ & _ & Hother & _).
    eapply Hother; evaluate.
  - destruct (get_dimension_power (E := Ref.engine) (PyStr "m + s ** 2")
                (Ref.Node OPow (Ref.Node OAdd Ref.meter Ref.second)
                   (Ref.Mono (Ref.NInt 2) []))
                (Ref.Node OAdd Ref.meter Ref.second)
                (Ref.Mono (Ref.NInt 2) [])
                ltac:(evaluate) ltac:(evaluate) ltac:(evaluate))
      as (_ & _ & _ & _ & Hnone).
    apply Hnone. evaluate.
Defined.

(** C8, counterexample.  ["1 / 0 5"] has three operands and one
    operator, and the call raises: the division by zero of its first step is
    no index error. *)
Lemma get_unit_from_str_division_by_zero :
  scan (split "1 / 0 5") [] [] =
    Ok ([PyInt 1; PyInt 0; PyInt 5], ["/"]) /\
  get_unit_from_str "1 / 0 5" = Raise ZeroDivisionError.
Proof. split; evaluate. Qed.

Lemma get_unit_from_str_more_operands_witness :
  scan (split "m / s 2 s") [] [] =
    Ok ([PySym Ref.meter; PySym Ref.second; PyInt 2; PySym Ref.second],
        ["/"]) /\
  get_unit_from_str "m / s 2 s" <> Raise IndexError /\
  exists r, get_unit_from_str "m / s 2 s" = Ok (PySym r).
Proof.
  split; [evaluate |].
  destruct (get_unit_from_str_more_operands (E := Ref.engine) "m / s 2 s"
              [PySym Ref.meter; PySym Ref.second; PyInt 2; PySym Ref.second]
              ["/"] ltac:(evaluate) ltac:(cbn; lia))
    as (unit_obj & Hfirst & _ & _ & Hne & Hret).
  split; [exact Hne |].
  apply (Hret Ref.meter). by injection Hfirst as <-.
Defined.

Lemma get_unit_from_str_no_operand_witness :
  Forall (fun item => item ∈ __OPERATION_LIST__) (split "  * / ** ") /\
  get_unit_from_str "  * / ** " = Raise IndexError /\
  get_unit_from_str EmptyString = Raise IndexError /\
  get_unit_from_str "   " = Raise IndexError.
Proof.
  assert (H : Forall (fun item => item ∈ __OPERATION_LIST__)
                (split "  * / ** ")).
  { apply (bool_decide_unpack _). vm_compute. exact I. }
  split; [exact H |]. split; [| split].
  - apply (get_unit_from_str_no_operand (E := Ref.engine) _ H).
  - apply (get_unit_from_str_no_operand (E := Ref.engine) EmptyString).
    constructor.
  - apply (get_unit_from_str_no_operand (E := Ref.engine) "   ").
    rewrite split_all_space by reflexivity. constructor.
Defined.

Lemma get_unit_from_str_integer_witness :
  split "5" = ["5"] /\ py_int "5" = Some 5 /\
  get_unit_from_str "5" = Ok (PyInt 5).
Proof.
  split; [evaluate |]. split; [evaluate |].
  apply (get_unit_from_str_integer (E := Ref.engine) "5" "5" 5); evaluate.
Defined.

End Explicit.

(** ** The further properties on explicit inputs *)

Section Explicit_further.

#[local] Existing Instance Ref.engine.

Ltac evaluate := vm_compute; reflexivity.
Ltac not_in_operations :=
  let H := fresh in
  intros H; apply (bool_decide_pack _) in H; vm_compute in H; exact H.

(** What follows the first NUL byte is not read: the string ["5"], a NUL
    and [" banana"] resolves to the integer 5, a NUL and ["m"] has no
    operand, and ["m"], a NUL and ["x"] resolves to the meter. *)
Example get_unit_from_str_nul :
  get_unit_from_str (String "5" (String Ascii.zero " banana")) =
    Ok (PyInt 5) /\
  get_unit_from_str (String Ascii.zero "m") = Raise IndexError /\
  get_unit_from_str (String "m" (String Ascii.zero "x")) =
    Ok (PySym Ref.meter).
Proof. split; [| split]; evaluate. Qed.

(** An array of one element is compared with the sentinels through that
    element; an array of several elements cannot be. *)
Example get_unit_array :
  get_unit (PyArray [1%nat] [PyInt 1]) = Ok Zero /\
  get_unit (PyArray [2%nat] [PyInt 1; PyInt 1]) =
    Raise (ValueError
      ("The truth value of an array with more than one element is "
       ++ "ambiguous. Use a.any() or a.all()")).
Proof. split; evaluate. Qed.

Lemma get_unit_from_str_unknown_token_witness :
  unit_str "m / banana s" = (["m"; "/"] ++ "banana" :: ["s"])%list /\
  get_unit_from_str "m / banana s" =
    Raise (UnitError "banana is not a valid unit.").
Proof.
  split; [evaluate |].
  apply (get_unit_from_str_unknown_token (E := Ref.engine)
           "m / banana s" ["m"; "/"] ["s"] "banana").
  - evaluate.
  - constructor; [| constructor; [| constructor]].
    + right; right. eexists. evaluate.
    + left. apply (bool_decide_unpack _). vm_compute. exact I.
  - split; [not_in_operations | split; evaluate].
Defined.

Lemma get_unit_from_str_token_places_witness :
  get_unit_from_str "/ m s" = get_unit_from_str "m / s" /\
  get_unit_from_str "m s /" = get_unit_from_str "m / s" /\
  get_unit_from_str "m / s" =
    Ok (PySym (Ref.binop ODiv Ref.meter Ref.second)).
Proof.
  split; [| split; [| evaluate]].
  - apply (get_unit_from_str_token_places (E := Ref.engine)); evaluate.
  - apply (get_unit_from_str_token_places (E := Ref.engine)); evaluate.
Defined.

Lemma get_unit_from_str_fold_witness :
  scan (split "m / s ** 2 s") [] [] =
    Ok ([PySym Ref.meter; PySym Ref.second; PyInt 2; PySym Ref.second],
        ["/"; "**"]) /\
  get_unit_from_str "m / s ** 2 s" =
    Ok (PySym (Ref.binop OPow (Ref.binop ODiv Ref.meter Ref.second)
                 (Ref.Mono (Ref.NInt 2) []))).
Proof.
  split; [evaluate |].
  apply (get_unit_from_str_fold (E := Ref.engine) "m / s ** 2 s"
           Ref.meter [PySym Ref.second; PyInt 2; PySym Ref.second]
           ["/"; "**"]
           [Ref.second; Ref.Mono (Ref.NInt 2) []; Ref.second]);
    evaluate.
Defined.

Lemma get_unit_from_str_integers_witness :
  scan (split "2 + 3 * 4") [] [] =
    Ok ([PyInt 2; PyInt 3; PyInt 4], ["+"; "*"]) /\
  get_unit_from_str "2 + 3 * 4" = Ok (PyInt 20).
Proof.
  split; [evaluate |].
  apply (get_unit_from_str_integers (E := Ref.engine) "2 + 3 * 4"
           2 [3; 4] ["+"; "*"]).
  - evaluate.
  - apply (bool_decide_unpack _). vm_compute. exact I.
Defined.

Lemma get_unit_from_str_surplus_operators_witness :
  unit_str "m / s * **" = (unit_str "m / s" ++ ["*"; "**"])%list /\
  get_unit_from_str "m / s * **" = get_unit_from_str "m / s".
Proof.
  split; [evaluate |].
  apply (get_unit_from_str_surplus_operators (E := Ref.engine)
           "m / s" "m / s * **" ["*"; "**"]
           [PySym Ref.meter; PySym Ref.second] ["/"]).
  - evaluate.
  - apply (bool_decide_unpack _). vm_compute. exact I.
  - evaluate.
  - cbn. lia.
Defined.

Lemma decompose_expr_not_expression_witness :
  decompose_expr (PyInt 5) =
    Raise (TypeError "Data type 5 not understood.") /\
  decompose_expr (PyStr "meter") =
    Raise (TypeError "Data type meter not understood.").
Proof.
  split.
  - apply (decompose_expr_not_expression (E := Ref.engine) (PyInt 5)).
    intros e. discriminate.
  - apply (decompose_expr_not_expression (E := Ref.engine) (PyStr "meter")).
    intros e. discriminate.
Defined.

Lemma decompose_expr_returns_witness :
  decompose_expr (PySym Ref.five_meter_second) =
    Ok (PyFloat 5%float, PySym Ref.meter_second) /\
  is_magnitude (PyFloat 5%float : pyobj Ref.sym float) /\
  decompose_expr (PySym Ref.meter_second) =
    Ok (PyInt 1, PySym Ref.meter_second) /\
  is_magnitude (PyInt 1 : pyobj Ref.sym float).
Proof.
  assert (H : decompose_expr (PySym Ref.five_meter_second) =
              Ok (PyFloat 5%float, PySym Ref.meter_second))
    by evaluate.
  assert (H' : decompose_expr (PySym Ref.meter_second) =
               Ok (PyInt 1, PySym Ref.meter_second))
    by evaluate.
  split; [exact H |]. split; [| split; [exact H' |]].
  - exact (proj1 (decompose_expr_returns (E := Ref.engine) _ _ _ H)).
  - exact (proj1 (decompose_expr_returns (E := Ref.engine) _ _ _ H')).
Defined.

Lemma get_dimension_quantity_witness :
  get_dimension (PyStr "m") = Ok length_ /\
  get_dimension (PySym (Ref.quantity "radian")) = Ok Zero.
Proof.
  split.
  - apply (proj2 (get_dimension_quantity (E := Ref.engine) (PyStr "m")
                    (PySym Ref.meter) (PySym (Ref.Dimension "length"))
                    (PySym (Ref.Symbol "length"))
                    ltac:(evaluate) ltac:(evaluate) ltac:(evaluate)
                    ltac:(evaluate))).
    evaluate.
  - apply (proj1 (get_dimension_quantity (E := Ref.engine)
                    (PySym (Ref.quantity "radian"))
                    (PySym (Ref.quantity "radian"))
                    (PySym (Ref.Dimension "1")) Ref.One
                    ltac:(evaluate) ltac:(evaluate) ltac:(evaluate)
                    ltac:(evaluate))).
    evaluate.
Defined.

Lemma get_dimension_returns_witness :
  get_dimension (PyStr "m ** 2") = Ok area /\
  (area = Zero \/ area = area \/ area = volume \/
   exists unit, get_unit (PyStr "m ** 2") = Ok unit /\
                getattr unit "dimension" = Ok area).
Proof.
  assert (H : get_dimension (PyStr "m ** 2") = Ok area) by evaluate.
  split; [exact H |].
  exact (get_dimension_returns (E := Ref.engine) _ _ H).
Defined.

Lemma decompose_expr_array_first_error_witness :
  decompose_expr_array
    (PyArray [3%nat]
       [Ref.float_times 3 Ref.meter; PyInt 7; Ref.float_times 2 Ref.second])
  = Raise (TypeError "Data type 7 not understood.").
Proof.
  apply (decompose_expr_array_first_error (E := Ref.engine) [3%nat]
           [Ref.float_times 3 Ref.meter] [Ref.float_times 2 Ref.second]
           (PyInt 7) [(PyFloat 3%float, PySym Ref.meter)]); evaluate.
Defined.

Lemma decompose_expr_array_no_first_witness :
  decompose_expr_array (PyArray [0%nat] []) = Raise IndexError /\
  decompose_expr_array (PyArray [] [Ref.float_times 3 Ref.meter]) =
    Raise IndexError.
Proof.
  split.
  - apply (decompose_expr_array_no_first (E := Ref.engine) [0%nat] [] []);
      [evaluate | right; by exists []].
  - apply (decompose_expr_array_no_first (E := Ref.engine) []
             [Ref.float_times 3 Ref.meter]
             [(PyFloat 3%float, PySym Ref.meter)]);
      [evaluate | by left].
Defined.

Lemma decompose_expr_array_zero_size_witness :
  decompose_expr_array (PyArray [2%nat; 0%nat] []) =
  Raise (ValueError
    "If the input is an array, the units for all values must be equal.").
Proof.
  apply (decompose_expr_array_zero_size (E := Ref.engine) 2 0 []);
    [lia | reflexivity].
Defined.

Lemma decompose_expr_array_nonempty_witness :
  exists fs : list float,
    decompose_expr_array Ref.uniform_array =
      Ok (PyArray [2%nat; 2%nat] (PyFloat <$> fs),
          PyArray [2%nat] [PySym Ref.meter; PySym Ref.meter]) /\
    length fs = 4%nat.
Proof.
  apply (decompose_expr_array_nonempty (E := Ref.engine) 2 [2%nat]
           [Ref.float_times 3 Ref.meter; Ref.float_times 3 Ref.meter;
            Ref.float_times 3 Ref.meter; Ref.float_times 3 Ref.meter]
           [(PyFloat 3%float, PySym Ref.meter);
            (PyFloat 3%float, PySym Ref.meter);
            (PyFloat 3%float, PySym Ref.meter);
            (PyFloat 3%float, PySym Ref.meter)]
           (PySym Ref.meter)); try evaluate; cbn; lia.
Defined.

End Explicit_further.
